(** * The SQL expression bridge of pkg/expr/sql/db.go

    A shallow embedding of [convertDataType], [writeDataframeToDb],
    [convertToDataFrame], [QueryFramesInto] and [NewInMemoryDB], followed by
    the properties of the frame-to-relational bridge that they decide.

    The source holds two revisions of db.go.  They differ in the context
    of the insertions (the earlier revision inserts the rows of a frame
    under an empty context of its own, the later one under the one context
    of the call, whose session all the writes of the call share) and in
    the name of the first parameter of [QueryFramesInto] ([name], then
    [tableName]).  The later revision is the one embedded here.

    The embedded SQL engine (go-mysql-server) and the frame library
    (grafana-plugin-sdk-go) are not under src/.  The engine is a parameter
    ([Engine]); of the frame library the frames, the fields and their typed
    vectors are modelled, because the bridge reads and appends them. *)

From Stdlib Require Import ZArith Lia.
From stdpp Require Import base strings list gmap.

Open Scope string_scope.
Open Scope list_scope.

(** ** Go values behind [interface{}] *)

(** A value together with its dynamic type, as a type switch sees it.
    Floats are carried as IEEE-754 bit patterns and times as nanoseconds:
    the bridge only moves them around.  [VOther] stands for a value of any
    other type (a pointer, a decimal, a JSON document), named as [%T]
    prints it. *)
Inductive GoValue : Type :=
  | VNil
  | VInt8 (n : Z) | VInt16 (n : Z) | VInt32 (n : Z) | VInt64 (n : Z)
  | VUint8 (n : Z) | VUint16 (n : Z) | VUint32 (n : Z) | VUint64 (n : Z)
  | VFloat32 (bits : Z) | VFloat64 (bits : Z)
  | VString (s : string)
  | VBool (b : bool)
  | VTime (unixNano : Z)
  | VOther (typeName : string).

(** What the verb [%T] prints for a value. *)
Definition goTypeName (v : GoValue) : string :=
  match v with
  | VNil => "<nil>"
  | VInt8 _ => "int8" | VInt16 _ => "int16"
  | VInt32 _ => "int32" | VInt64 _ => "int64"
  | VUint8 _ => "uint8" | VUint16 _ => "uint16"
  | VUint32 _ => "uint32" | VUint64 _ => "uint64"
  | VFloat32 _ => "float32" | VFloat64 _ => "float64"
  | VString _ => "string"
  | VBool _ => "bool"
  | VTime _ => "time.Time"
  | VOther t => t
  end.

(** ** Frames (package data of the plugin SDK) *)

Module data.

(** Modelled from the spec: [data.FieldType] is declared in the frame
    library.  The type tag of a field; the tags without [Nullable], [JSON],
    [Enum] and [Unknown] are the fixed enumeration Int8...Int64,
    Uint8...Uint64, Float32, Float64, String, Bool, Time, and the others
    are what [convertDataType] leaves to its default case. *)
Inductive FieldType : Type :=
  | FieldTypeUnknown
  | FieldTypeInt8 | FieldTypeNullableInt8
  | FieldTypeInt16 | FieldTypeNullableInt16
  | FieldTypeInt32 | FieldTypeNullableInt32
  | FieldTypeInt64 | FieldTypeNullableInt64
  | FieldTypeUint8 | FieldTypeNullableUint8
  | FieldTypeUint16 | FieldTypeNullableUint16
  | FieldTypeUint32 | FieldTypeNullableUint32
  | FieldTypeUint64 | FieldTypeNullableUint64
  | FieldTypeFloat32 | FieldTypeNullableFloat32
  | FieldTypeFloat64 | FieldTypeNullableFloat64
  | FieldTypeString | FieldTypeNullableString
  | FieldTypeBool | FieldTypeNullableBool
  | FieldTypeTime | FieldTypeNullableTime
  | FieldTypeJSON | FieldTypeNullableJSON
  | FieldTypeEnum | FieldTypeNullableEnum.

(** The Go element type of the vector behind a field of each type. *)
Definition elemTypeName (t : FieldType) : string :=
  match t with
  | FieldTypeUnknown => "unknown"
  | FieldTypeInt8 => "int8" | FieldTypeNullableInt8 => "*int8"
  | FieldTypeInt16 => "int16" | FieldTypeNullableInt16 => "*int16"
  | FieldTypeInt32 => "int32" | FieldTypeNullableInt32 => "*int32"
  | FieldTypeInt64 => "int64" | FieldTypeNullableInt64 => "*int64"
  | FieldTypeUint8 => "uint8" | FieldTypeNullableUint8 => "*uint8"
  | FieldTypeUint16 => "uint16" | FieldTypeNullableUint16 => "*uint16"
  | FieldTypeUint32 => "uint32" | FieldTypeNullableUint32 => "*uint32"
  | FieldTypeUint64 => "uint64" | FieldTypeNullableUint64 => "*uint64"
  | FieldTypeFloat32 => "float32" | FieldTypeNullableFloat32 => "*float32"
  | FieldTypeFloat64 => "float64" | FieldTypeNullableFloat64 => "*float64"
  | FieldTypeString => "string" | FieldTypeNullableString => "*string"
  | FieldTypeBool => "bool" | FieldTypeNullableBool => "*bool"
  | FieldTypeTime => "time.Time" | FieldTypeNullableTime => "*time.Time"
  | FieldTypeJSON => "json.RawMessage"
  | FieldTypeNullableJSON => "*json.RawMessage"
  | FieldTypeEnum => "data.EnumItemIndex"
  | FieldTypeNullableEnum => "*data.EnumItemIndex"
  end.

(** Modelled from the spec: [data.Field] and [data.Frame] are declared in
    the frame library.  A field has a name, a type tag and an ordered
    sequence of typed values; a frame is a named, ordered sequence of
    fields. *)
Record Field : Type := mkField {
  FName : string;
  FType : FieldType;
  values : list GoValue;
}.

Record Frame : Type := mkFrame {
  Name : string;
  Fields : list Field;
}.

(** [data.NewField(name, nil, []T{})]: an empty vector of element type T. *)
Definition NewField (name : string) (t : FieldType) : Field :=
  {| FName := name; FType := t; values := [] |}.

(** [data.NewFrame(name, fields...)]. *)
Definition NewFrame (name : string) (fields : list Field) : Frame :=
  {| Name := name; Fields := fields |}.

(** [var frame data.Frame]: the zero value. *)
Definition zeroFrame : Frame := {| Name := ""; Fields := [] |}.

(** [field.Len()]. *)
Definition Len (fld : Field) : nat := length (values fld).

(** [frame.Rows()]: the length of the first field, 0 without fields. *)
Definition Rows (fr : Frame) : nat :=
  match Fields fr with
  | [] => 0
  | fld :: _ => Len fld
  end.

(** The field types whose vector holds plain scalars, strings or times and
    not pointers: the supported enumeration of the specification. *)
Definition supported (t : FieldType) : bool :=
  match t with
  | FieldTypeInt8 | FieldTypeInt16 | FieldTypeInt32 | FieldTypeInt64
  | FieldTypeUint8 | FieldTypeUint16 | FieldTypeUint32 | FieldTypeUint64
  | FieldTypeFloat32 | FieldTypeFloat64
  | FieldTypeString | FieldTypeBool | FieldTypeTime => true
  | _ => false
  end.

#[global] Instance FieldType_eq_dec : EqDecision FieldType.
Proof. solve_decision. Defined.

(** Modelled from the spec: the vectors are declared in the frame library.
    A field is one homogeneously typed column, so its vector holds values
    of its element type only: [accepts fld v] is the type assertion
    [v.(T)] for the element type T of [fld]. *)
Definition accepts (fld : Field) (v : GoValue) : bool :=
  match v with
  | VNil => false
  | VInt8 _ => bool_decide (FType fld = FieldTypeInt8)
  | VInt16 _ => bool_decide (FType fld = FieldTypeInt16)
  | VInt32 _ => bool_decide (FType fld = FieldTypeInt32)
  | VInt64 _ => bool_decide (FType fld = FieldTypeInt64)
  | VUint8 _ => bool_decide (FType fld = FieldTypeUint8)
  | VUint16 _ => bool_decide (FType fld = FieldTypeUint16)
  | VUint32 _ => bool_decide (FType fld = FieldTypeUint32)
  | VUint64 _ => bool_decide (FType fld = FieldTypeUint64)
  | VFloat32 _ => bool_decide (FType fld = FieldTypeFloat32)
  | VFloat64 _ => bool_decide (FType fld = FieldTypeFloat64)
  | VString _ => bool_decide (FType fld = FieldTypeString)
  | VBool _ => bool_decide (FType fld = FieldTypeBool)
  | VTime _ => bool_decide (FType fld = FieldTypeTime)
  | VOther t =>
      negb (supported (FType fld))
      && bool_decide (t = elemTypeName (FType fld))
  end.

(** Every value of the vector has the element type. *)
Definition wellTyped (fld : Field) : Prop :=
  Forall (fun v => accepts fld v = true) (values fld).

End data.

Export data.

(** ** Column types of the engine (package types of go-mysql-server) *)

Module types.

(** Modelled from the spec: the column types are declared in the engine.
    64-bit integer and floating column types, text, boolean and timestamp
    types for the frames, and the further types a result can have. *)
Inductive SqlType : Type :=
  | Int8 | Int16 | Int32 | Int64
  | Uint8 | Uint16 | Uint32 | Uint64
  | Float32 | Float64
  | Boolean
  | Text | LongText | Blob
  | Timestamp | Datetime | Date | Year
  | Decimal | JSON | Null | OkResult.

(** The types behind the interface [sql.NumberType], which by the comment
    in [convertToDataFrame] represents all integer and floating point
    types; [Boolean] is the engine's one-digit [Int8]. *)
Definition isNumberType (t : SqlType) : bool :=
  match t with
  | Int8 | Int16 | Int32 | Int64
  | Uint8 | Uint16 | Uint32 | Uint64
  | Float32 | Float64 | Boolean => true
  | _ => false
  end.

(** The types behind the interface [sql.StringType], which by the comment
    in [convertToDataFrame] represents all string types, VARCHAR and BLOB
    included.  DATE, DATETIME and TIMESTAMP are behind [sql.DatetimeType],
    which the same comment lists as not implemented. *)
Definition isStringType (t : SqlType) : bool :=
  match t with
  | Text | LongText | Blob => true
  | _ => false
  end.

End types.

Export types.

#[global] Instance SqlType_eq_dec : EqDecision SqlType.
Proof. solve_decision. Defined.

(** [sql.Column], with the four members the bridge sets. *)
Record Column : Type := mkColumn {
  colName : string;
  colType : SqlType;
  Nullable : bool;
  Source : string;
}.

Abbreviation Schema := (list Column).
Abbreviation Row := (list GoValue).

(** Modelled from the spec: [sql.RowIter] is declared in the engine.  A
    finite, forward-only row stream: what successive calls of
    [iter.Next(NewEmptyContext())] do; the end of the list is [io.EOF].
    The bridge reads with an empty context, under which [Next] returns a
    row or an error or, as the iterator of a table scan does, panics. *)
Inductive IterItem : Type :=
  | IterRow (row : Row)
  | IterErr (cause : string)
  | IterPanic (reason : string).

Abbreviation RowIter := (list IterItem).

(** Modelled from the spec: [memory.Table] is declared in the engine.  A
    table has one column per field and the rows in the order of their
    insertion. *)
Record Table : Type := mkTable {
  tblName : string;
  tblSchema : Schema;
  tblRows : list Row;
}.

(** [memory.NewTable(db, name, sql.NewPrimaryKeySchema(schema), nil)]. *)
Definition NewTable (name : string) (schema : Schema) : Table :=
  {| tblName := name; tblSchema := schema; tblRows := [] |}.

Definition addRow (t : Table) (row : Row) : Table :=
  {| tblName := tblName t; tblSchema := tblSchema t;
     tblRows := tblRows t ++ [row] |}.

(** Modelled from the spec: [memory.Database] is declared in the engine.
    It owns zero or more tables keyed by name; [AddTable] under a name in
    use replaces the table. *)
Abbreviation Database := (gmap string Table).

(** What the session of a call has seen: the tables the call has written
    so far, the last one first.  The context [ctx] of the call carries the
    session to every [table.Insert] of the call. *)
Abbreviation Session := (list Table).

(** The engine as it behaves during one call, a parameter of everything
    below: [table.Insert] accepts a row or returns an error, as the
    session, the table and the row make it; [engine.Query] answers a
    statement over the catalog with an error or with a result schema and a
    row stream, and executes it: the statement is handed over as it is,
    and [engineEffect] is the catalog it leaves (a DROP TABLE or a CREATE
    TABLE changes it).  The session is built by the call, so that two
    calls are two engines. *)
Record Engine : Type := mkEngine {
  tableInsert : Session -> Table -> Row -> option string;
  engineQuery : Database -> string -> string + (Schema * RowIter);
  engineEffect : Database -> string -> Database;
}.

(** ** Errors, panics and the monad of the bridge *)

(** One constructor per [fmt.Errorf] of db.go, and one for the error of
    [engine.Query], which is returned as it is. *)
Inductive Error : Type :=
  | ErrNilFrame
  | ErrInsertingRow (i : nat) (cause : string)
  | ErrQuery (cause : string)
  | ErrUnsupportedColumnType (col : string) (ty : SqlType)
  | ErrReadingRow (cause : string)
  | ErrUnsupportedValueType (col : string) (goType : string).

(** Run-time panics of Go: an index out of range, a failed type
    assertion [v.(T)], and a panic raised inside the engine. *)
Inductive Panic : Type :=
  | PanicIndexOutOfRange (i len : nat)
  | PanicTypeAssertion (want got : string)
  | PanicInEngine (reason : string).

Inductive Res (A : Type) : Type :=
  | Ret (a : A)
  | Err (e : Error)
  | Panicked (p : Panic).

Arguments Ret {A} a.
Arguments Err {A} e.
Arguments Panicked {A} p.

(** A computation over a mutable state [St]: the state reached is returned
    whatever the result, as a caller holding a pointer sees it. *)
Definition M (St A : Type) : Type := St -> St * Res A.

Definition ret {St A} (a : A) : M St A := fun s => (s, Ret a).

Definition bind {St A B} (m : M St A) (k : A -> M St B) : M St B :=
  fun s =>
    let '(s', r) := m s in
    match r with
    | Ret a => k a s'
    | Err e => (s', Err e)
    | Panicked p => (s', Panicked p)
    end.

Definition fail {St A} (e : Error) : M St A := fun s => (s, Err e).
Definition panic {St A} (p : Panic) : M St A := fun s => (s, Panicked p).
Definition modify {St} (g : St -> St) : M St unit := fun s => (g s, Ret tt).

Declare Scope bridge_scope.
Delimit Scope bridge_scope with bridge.
Notation "x <- m ;; k" := (bind m (fun x => k))
  (at level 100, m at next level, right associativity) : bridge_scope.
Notation "m ;;; k" := (bind m (fun _ => k))
  (at level 100, right associativity) : bridge_scope.
Open Scope bridge_scope.

(** [for _, x := range l { body }]. *)
Fixpoint forEach {St A} (l : list A) (body : A -> M St unit) : M St unit :=
  match l with
  | [] => ret tt
  | x :: l' => body x ;;; forEach l' body
  end.

(** [for i, x := range l { body }], counting from [i]. *)
Fixpoint forEachFrom {St A} (i : nat) (l : list A)
    (body : nat -> A -> M St unit) : M St unit :=
  match l with
  | [] => ret tt
  | x :: l' => body i x ;;; forEachFrom (S i) l' body
  end.

(** Run a computation on one component of a pair of states. *)
Definition onFst {St T A} (m : M St A) : M (St * T) A :=
  fun st => let '(s', r) := m (fst st) in ((s', snd st), r).

Definition onSnd {St T A} (m : M T A) : M (St * T) A :=
  fun st => let '(t', r) := m (snd st) in ((fst st, t'), r).

(** ** The frame library's accessors, as db.go calls them *)

(** [field.At(i)]: the i-th element of the vector; out of range it
    panics. *)
Definition At {St} (fld : Field) (i : nat) : M St GoValue :=
  match values fld !! i with
  | Some v => ret v
  | None => panic (PanicIndexOutOfRange i (Len fld))
  end.

(** [field.Append(v)]: the vector asserts [v.(T)] for its element type T
    and appends; a value of another dynamic type panics. *)
Definition Append (fld : Field) (v : GoValue) : Panic + Field :=
  if accepts fld v
  then inr {| FName := FName fld; FType := FType fld;
              values := values fld ++ [v] |}
  else inl (PanicTypeAssertion (elemTypeName (FType fld)) (goTypeName v)).

(** ** convertToDataFrame *)

(** The type switch on [col.Type] that picks the field of a column. *)
Definition fieldForColumn (col : Column) : Error + Field :=
  if isNumberType (colType col) then
    inr (NewField (colName col) FieldTypeInt64)
  else if isStringType (colType col) then
    inr (NewField (colName col) FieldTypeString)
  else
    inl (ErrUnsupportedColumnType (colName col) (colType col)).

(** [f.Fields = append(f.Fields, field)]. *)
Definition appendField (field : Field) (f : Frame) : Frame :=
  {| Name := Name f; Fields := Fields f ++ [field] |}.

(** The first loop: one field per column of the schema. *)
Definition createFields (schema : Schema) : M Frame unit :=
  forEach schema (fun col =>
    match fieldForColumn col with
    | inr field => modify (appendField field)
    | inl e => fail e
    end).

(** [f.Fields[i].Append(v)]. *)
Definition appendTo (i : nat) (v : GoValue) : M Frame unit :=
  fun f =>
    match Fields f !! i with
    | None => (f, Panicked (PanicIndexOutOfRange i (length (Fields f))))
    | Some fld =>
        match Append fld v with
        | inr fld' =>
            ({| Name := Name f; Fields := <[i := fld']> (Fields f) |}, Ret tt)
        | inl p => (f, Panicked p)
        end
    end.

(** The type switch on a value of a row, at column [i]. *)
Definition appendValue (schema : Schema) (i : nat) (val : GoValue)
    : M Frame unit :=
  match val with
  | VInt8 v => appendTo i (VInt64 v)
  | VInt64 _ => appendTo i val
  | VFloat64 _ => appendTo i val
  | VString _ => appendTo i val
  | VBool _ => appendTo i val
  | _ =>
      match schema !! i with
      | Some col => fail (ErrUnsupportedValueType (colName col) (goTypeName val))
      | None => panic (PanicIndexOutOfRange i (length schema))
      end
  end.

(** The second loop: rows are read until [io.EOF]; an error of the
    iterator or of a value ends the call, and so does a panic of
    [Next]. *)
Fixpoint readRows (iter : RowIter) (schema : Schema) : M Frame unit :=
  match iter with
  | [] => ret tt
  | IterErr cause :: _ => fail (ErrReadingRow cause)
  | IterPanic reason :: _ => panic (PanicInEngine reason)
  | IterRow row :: iter' =>
      forEachFrom 0 row (appendValue schema) ;;;
      readRows iter' schema
  end.

Definition convertToDataFrame (iter : RowIter) (schema : Schema)
    : M Frame unit :=
  createFields schema ;;;
  readRows iter schema.

(** ** convertDataType *)

Definition convertDataType (fieldType : FieldType) : SqlType :=
  match fieldType with
  | FieldTypeInt8 | FieldTypeInt16 | FieldTypeInt32 | FieldTypeInt64 =>
      types.Int64
  | FieldTypeUint8 | FieldTypeUint16 | FieldTypeUint32 | FieldTypeUint64 =>
      types.Uint64
  | FieldTypeFloat32 | FieldTypeFloat64 => types.Float64
  | FieldTypeString => types.Text
  | FieldTypeBool => types.Boolean
  | FieldTypeTime => types.Timestamp
  | _ => types.JSON
  end.

(** ** writeDataframeToDb *)

(** The schema built from the fields of a frame. *)
Definition schemaOf (tableName : string) (frame : Frame) : Schema :=
  (fun field =>
     {| colName := FName field;
        colType := convertDataType (FType field);
        Nullable := true;
        Source := tableName |})
  <$> Fields frame.

(** [row[j] = field.At(i)] for every field. *)
Fixpoint rowAt {St} (fields : list Field) (i : nat) : M St Row :=
  match fields with
  | [] => ret []
  | field :: fields' =>
      v <- At field i ;;
      row <- rowAt fields' i ;;
      ret (v :: row)
  end.

(** [db.inMemoryDb.AddTable(name, table)]. *)
Definition AddTable (name : string) (table : Table) : M Database unit :=
  modify (fun db : Database => <[name := table]> db).

(** The insertion loop over the row numbers [rows].  [table] is the table
    the database holds under [tableName]: an accepted row is seen there at
    once. *)
Fixpoint insertRows (E : Engine) (ctx : Session) (tableName : string)
    (frame : Frame) (table : Table) (rows : list nat) : M Database unit :=
  match rows with
  | [] => ret tt
  | i :: rows' =>
      row <- rowAt (Fields frame) i ;;
      match tableInsert E ctx table row with
      | Some cause => fail (ErrInsertingRow i cause)
      | None =>
          AddTable tableName (addRow table row) ;;;
          insertRows E ctx tableName frame (addRow table row) rows'
      end
  end.

(** A nil [*data.Frame] is [None]. *)
Definition writeDataframeToDb (E : Engine) (ctx : Session)
    (tableName : string) (frame : option Frame) : M Database unit :=
  match frame with
  | None => fail ErrNilFrame
  | Some frame =>
      let table := NewTable tableName (schemaOf tableName frame) in
      AddTable tableName table ;;;
      insertRows E ctx tableName frame table (seq 0 (Rows frame))
  end.

(** ** QueryFramesInto *)

(** The session once a frame is written: it has seen the table the
    database holds under [tableName]. *)
Definition seen (tableName : string) (db : Database) (ctx : Session)
    : Session :=
  match db !! tableName with
  | Some table => table :: ctx
  | None => ctx
  end.

(** The loop over the input frames: every frame is written under the one
    name [tableName] and through the one context of the call, and the
    first error ends the loop. *)
Fixpoint materializeFrom (E : Engine) (ctx : Session) (tableName : string)
    (frames : list (option Frame)) : M Database unit :=
  match frames with
  | [] => ret tt
  | frame :: frames' =>
      writeDataframeToDb E ctx tableName frame ;;;
      (fun db => materializeFrom E (seen tableName db ctx) tableName frames' db)
  end.

(** The loop from the context the call builds, whose session is new. *)
Definition materialize (E : Engine) (tableName : string)
    (frames : list (option Frame)) : M Database unit :=
  materializeFrom E [] tableName frames.

(** [f.Name = tableName]. *)
Definition setName (name : string) (f : Frame) : Frame :=
  {| Name := name; Fields := Fields f |}.

(** [engine.Query(ctx, query)] over the handle's database: the engine
    answers, and the database is as the statement leaves it. *)
Definition Query (E : Engine) (query : string)
    : M (Database * Frame) (Schema * RowIter) :=
  fun st =>
    let st' := (engineEffect E (fst st) query, snd st) in
    match engineQuery E (fst st) query with
    | inr res => (st', Ret res)
    | inl cause => (st', Err (ErrQuery cause))
    end.

(** The catalog against which the statement of a call runs: the database
    of the handle as the materializer of the call leaves it. *)
Definition catalogAtQuery (E : Engine) (tableName : string)
    (frames : list (option Frame)) (db : Database) : Database :=
  fst (materialize E tableName frames db).

(** The state is the database of the handle [db] and the frame behind the
    pointer [f]. *)
Definition QueryFramesInto (E : Engine) (tableName query : string)
    (frames : list (option Frame)) : M (Database * Frame) unit :=
  onSnd (modify (setName tableName)) ;;;
  onFst (materialize E tableName frames) ;;;
  res <- Query E query ;;
  onSnd (convertToDataFrame (snd res) (fst res)).

(** [NewInMemoryDB()]: a handle on an empty database. *)
Definition NewInMemoryDB : Database := ∅.

(** A call as the test of the package makes it: into the zero frame. *)
Definition Evaluate (E : Engine) (db : Database) (outputName query : string)
    (inputFrames : list (option Frame)) : (Database * Frame) * Res unit :=
  QueryFramesInto E outputName query inputFrames (db, zeroFrame).

(** ** The error taxonomy of the specification *)

Inductive ErrorKind : Type :=
  | MaterializationError
  | ExecutionError
  | DecodeError.

(** The kind under which the specification files each error of db.go:
    failures of the materializer, of the engine, and of the result
    builder. *)
Definition errorKind (e : Error) : ErrorKind :=
  match e with
  | ErrNilFrame | ErrInsertingRow _ _ => MaterializationError
  | ErrQuery _ | ErrReadingRow _ => ExecutionError
  | ErrUnsupportedColumnType _ _ | ErrUnsupportedValueType _ _ => DecodeError
  end.

(** ** Engines to run the bridge on *)

(** An engine that accepts every row and gives one answer to every
    statement, which leaves the catalog as it is. *)
Definition answering (answer : string + (Schema * RowIter)) : Engine :=
  {| tableInsert := fun _ _ _ => None;
     engineQuery := fun _ _ => answer;
     engineEffect := fun db _ => db |}.

(** An engine that accepts every row and knows one statement: the scan
    [SELECT * FROM t] of the table [t], answered with the schema of the
    table and with the iterator of a table scan, whose [Next] panics
    under the empty context of the bridge. *)
Definition scanning (t : string) : Engine :=
  {| tableInsert := fun _ _ _ => None;
     engineQuery := fun db query =>
       if bool_decide (query = "SELECT * FROM " +:+ t) then
         match db !! t with
         | Some table =>
             inr (tblSchema table, [IterPanic "Next under an empty context"])
         | None => inl ("table not found: " +:+ t)
         end
       else inl "syntax error";
     engineEffect := fun db _ => db |}.

(** The schema and the row with which the engine answers a statement that
    returns no rows of its own, such as a DROP TABLE. *)
Definition okResult : Schema * RowIter :=
  ([{| colName := "__ok_result__"; colType := Int64; Nullable := false;
       Source := "" |}],
   [IterRow [VOther "types.OkResult"]]).

(** An engine that knows one statement, [DROP TABLE t]: it drops the
    table [t], or fails when there is none. *)
Definition dropping (t : string) : Engine :=
  {| tableInsert := fun _ _ _ => None;
     engineQuery := fun db query =>
       if bool_decide (query = "DROP TABLE " +:+ t) then
         match db !! t with
         | Some _ => inr okResult
         | None => inl ("table not found: " +:+ t)
         end
       else inl "syntax error";
     engineEffect := fun db query =>
       if bool_decide (query = "DROP TABLE " +:+ t) then delete t db
       else db |}.

(** An engine whose session keeps the first table a call writes: a row of
    a later table of the call is checked against the column types of that
    first table.  It answers no statement. *)
Definition sessionKeeping : Engine :=
  {| tableInsert := fun ctx t _ =>
       match last ctx with
       | Some first =>
           if bool_decide (colType <$> tblSchema first = colType <$> tblSchema t)
           then None
           else Some "row does not fit the table of the session"
       | None => None
       end;
     engineQuery := fun _ _ => inl "no statements";
     engineEffect := fun db _ => db |}.

(** The results the materializer can have once the table is defined. *)
Definition insertionResult (r : Res unit) : Prop :=
  r = Ret tt \/ (exists i cause, r = Err (ErrInsertingRow i cause)) \/
  exists p, r = Panicked p.

(** A field with more values appended, and a frame whose fields have had
    values appended. *)
Definition fieldExtends (a b : Field) : Prop :=
  FName a = FName b /\ FType a = FType b /\ values a `prefix_of` values b.

Definition grows (f g : Frame) : Prop :=
  Name f = Name g /\ Forall2 fieldExtends (Fields f) (Fields g).

(** What a call leaves behind. *)
Definition storeOf {A} (r : (Database * Frame) * Res A) : Database :=
  fst (fst r).
Definition frameOf {A} (r : (Database * Frame) * Res A) : Frame :=
  snd (fst r).
Definition resultOf {A} (r : (Database * Frame) * Res A) : Res A :=
  snd r.

(** ** Inputs of the scenarios *)

(** The input frame of the third case of [TestQueryFramesInto]. *)
Definition typosFrame : Frame :=
  NewFrame "inputFrameRefId"
    [mkField "OSS Projects with Typos" FieldTypeString
       [VString "Garfana"; VString "Pormetheus"]].

(** The answer of the engine to [SELECT '1' AS n;]: one text column and
    one row. *)
Definition literalOne : Schema * RowIter :=
  ([{| colName := "n"; colType := LongText; Nullable := false; Source := "" |}],
   [IterRow [VString "1"]]).

(** A frame without rows whose field holds [*float64]. *)
Definition nullableFrame : Frame :=
  NewFrame "A" [mkField "value" FieldTypeNullableFloat64 []].

(** A frame [t] with one column of times, and the scan of its table. *)
Definition timeFrame : Frame :=
  NewFrame "t" [mkField "time" FieldTypeTime [VTime 1700000000000000000]].

(** A frame [t] with one column of strings. *)
Definition labelFrame : Frame :=
  NewFrame "t" [mkField "label" FieldTypeString
                  [VString "Garfana"; VString "Pormetheus"]].

(** A frame [t] with a column of strings and a column of unsigned
    integers. *)
Definition mixedFrame : Frame :=
  NewFrame "t"
    [mkField "a" FieldTypeString [VString "x"; VString "y"];
     mkField "b" FieldTypeUint64 [VUint64 1; VUint64 2]].

(** An answer with a text column and a null in its row. *)
Definition nullAnswer : Schema * RowIter :=
  ([{| colName := "a"; colType := LongText; Nullable := true; Source := "" |}],
   [IterRow [VNil]]).

(** An answer with a numeric column and a null in its row. *)
Definition nullNumberAnswer : Schema * RowIter :=
  ([{| colName := "k"; colType := Int64; Nullable := true; Source := "" |}],
   [IterRow [VNil]]).

(** The answer of the engine to [SELECT 1.5e0 AS x;]: one column of
    doubles and the bits of 1.5 in its row. *)
Definition floatAnswer : Schema * RowIter :=
  ([{| colName := "x"; colType := Float64; Nullable := false; Source := "" |}],
   [IterRow [VFloat64 4609434218613702656]]).

(** ** Notions for the further properties *)

(** [row] holds, field by field, the [i]-th value of each field. *)
Definition rowIs (fields : list Field) (i : nat) (row : Row) : Prop :=
  Forall2 (fun field v => values field !! i = Some v) fields row.

(** The rows [0 .. length rows - 1] of the fields, in order. *)
Definition rowsAre (fields : list Field) (rows : list Row) : Prop :=
  forall i row, rows !! i = Some row -> rowIs fields i row.

(** An engine whose tables take [k] rows and reject the next one; it
    answers no statement. *)
Definition rejectingAt (k : nat) : Engine :=
  {| tableInsert := fun _ t _ =>
       if bool_decide (length (tblRows t) < k) then None
       else Some "table is full";
     engineQuery := fun _ _ => inl "no statements";
     engineEffect := fun db _ => db |}.

(** A frame whose second field is one value short. *)
Definition raggedFrame : Frame :=
  NewFrame "t"
    [mkField "a" FieldTypeString [VString "x"; VString "y"];
     mkField "b" FieldTypeInt64 [VInt64 1]].

(** The columns the first type switch of [convertToDataFrame] has a case
    for, and the field it makes for one. *)
Definition decodableColumn (col : Column) : bool :=
  isNumberType (colType col) || isStringType (colType col).

Definition columnField (col : Column) : Field :=
  NewField (colName col)
    (if isNumberType (colType col) then FieldTypeInt64 else FieldTypeString).

(** The frame with the value [v] at the end of field [i]. *)
Definition appended (i : nat) (v : GoValue) (f : Frame) : Frame :=
  match Fields f !! i with
  | Some fld =>
      {| Name := Name f;
         Fields := <[i := {| FName := FName fld; FType := FType fld;
                             values := values fld ++ [v] |}]> (Fields f) |}
  | None => f
  end.

(** The values the second type switch has a case for, and what it hands
    to the vector. *)
Definition inSwitch (v : GoValue) : bool :=
  match v with
  | VInt8 _ | VInt64 _ | VFloat64 _ | VString _ | VBool _ => true
  | _ => false
  end.

Definition widened (v : GoValue) : GoValue :=
  match v with
  | VInt8 n => VInt64 n
  | _ => v
  end.

(** The pairs of a column and a value for which both type switches
    agree: integers of 8 or 64 bits for a numeric column, strings for a
    string column. *)
Definition decodes (col : Column) (v : GoValue) : bool :=
  match v with
  | VInt8 _ | VInt64 _ => isNumberType (colType col)
  | VString _ => negb (isNumberType (colType col)) && isStringType (colType col)
  | _ => false
  end.

(** The frame of a call that has decoded the answer [literalOne]. *)
Definition usedFrame : Frame :=
  NewFrame "sqlExpressionRefId" [mkField "n" FieldTypeString [VString "1"]].

(** An answer of the engine with two text columns and a null after a
    string in its row, as to
    [SELECT 'x' AS a, CAST(NULL AS CHAR) AS b;]. *)
Definition partialAnswer : Schema * RowIter :=
  ([{| colName := "a"; colType := LongText; Nullable := false; Source := "" |};
    {| colName := "b"; colType := LongText; Nullable := true; Source := "" |}],
   [IterRow [VString "x"; VNil]]).

(** * Properties *)

(** ** The loops *)

Lemma forEachFrom_app {St A} (i : nat) (l1 l2 : list A)
    (body : nat -> A -> M St unit) (s : St) :
  forEachFrom i (l1 ++ l2) body s =
  (forEachFrom i l1 body ;;; forEachFrom (i + length l1) l2 body) s.
Proof.
  revert i s. induction l1 as [|x l1 IH]; intros i s.
  - cbn. rewrite Nat.add_0_r. reflexivity.
  - cbn [app forEachFrom length]. unfold bind in *.
    destruct (body i x s) as [s' [[]|e|p]]; [|reflexivity..].
    rewrite IH, Nat.add_succ_r. reflexivity.
Qed.

(** ** The materializer *)

Section Materializer.

Variable E : Engine.
Variable tableName : string.

(** Reading a row does not touch the state. *)
Lemma rowAt_pure (fields : list Field) (i : nat) :
  exists r : Res Row, (forall e, r <> Err e) /\
    forall St (s : St), rowAt fields i s = (s, r).
Proof.
  induction fields as [|fld fields [r [Hr IH]]].
  - exists (Ret []). split; [discriminate | reflexivity].
  - cbn [rowAt]. unfold At. destruct (values fld !! i) as [v|].
    + destruct r as [row|e|p].
      * exists (Ret (v :: row)). split; [discriminate|].
        intros St s. unfold bind, ret. rewrite IH. reflexivity.
      * exists (Err e). split; [exact Hr|].
        intros St s. unfold bind, ret. rewrite IH. reflexivity.
      * exists (Panicked p). split; [discriminate|].
        intros St s. unfold bind, ret. rewrite IH. reflexivity.
    + exists (Panicked (PanicIndexOutOfRange i (Len fld))).
      split; [discriminate | reflexivity].
Qed.

(** The insertion loop rewrites the entry of [tableName] and nothing else,
    and what it writes does not depend on the rest of the database. *)
Lemma insertRows_shape (ctx : Session) (frame : Frame) (rows : list nat)
    (table : Table) :
  exists (T : Table) (r : Res unit),
    tblSchema T = tblSchema table /\ insertionResult r /\
    forall db : Database,
      insertRows E ctx tableName frame table rows (<[tableName := table]> db)
      = (<[tableName := T]> db, r).
Proof.
  revert table. induction rows as [|i rows IH]; intros table.
  - exists table, (Ret tt). unfold insertionResult. eauto.
  - cbn [insertRows].
    destruct (rowAt_pure (Fields frame) i) as [[row|e|p] [Hr Hrow]].
    + destruct (tableInsert E ctx table row) as [cause|] eqn:Hins.
      * exists table, (Err (ErrInsertingRow i cause)).
        split; [reflexivity|]. split; [right; left; eauto|].
        intros db. unfold bind. rewrite Hrow, Hins. reflexivity.
      * destruct (IH (addRow table row)) as (T & r & HT & Hr' & Hrun).
        exists T, r. split; [exact HT|]. split; [exact Hr'|].
        intros db. unfold bind at 1. rewrite Hrow, Hins.
        unfold bind, AddTable, modify. rewrite insert_insert_eq. apply Hrun.
    + destruct (Hr e eq_refl).
    + exists table, (Panicked p).
      split; [reflexivity|]. split; [right; right; eauto|].
      intros db. unfold bind. rewrite Hrow. reflexivity.
Qed.

Lemma writeDataframeToDb_shape (ctx : Session) (frame : Frame) :
  exists (T : Table) (r : Res unit),
    tblSchema T = schemaOf tableName frame /\ insertionResult r /\
    forall db : Database,
      writeDataframeToDb E ctx tableName (Some frame) db
      = (<[tableName := T]> db, r).
Proof.
  destruct (insertRows_shape ctx frame (seq 0 (Rows frame))
              (NewTable tableName (schemaOf tableName frame)))
    as (T & r & HT & Hr & Hrun).
  exists T, r. split; [exact HT|]. split; [exact Hr|].
  intros db. unfold writeDataframeToDb, bind, AddTable, modify. apply Hrun.
Qed.

(** Materializing leaves the database as it is or rewrites the one entry
    [tableName], with a table and a result that do not depend on the
    database. *)
Lemma materializeFrom_shape (frames : list (option Frame)) (ctx : Session) :
  exists r : Res unit,
    (forall db : Database,
        materializeFrom E ctx tableName frames db = (db, r)) \/
    exists T : Table,
      forall db : Database,
        materializeFrom E ctx tableName frames db = (<[tableName := T]> db, r).
Proof.
  revert ctx. induction frames as [|[frame|] frames IH]; intros ctx.
  - exists (Ret tt). left. reflexivity.
  - destruct (writeDataframeToDb_shape ctx frame) as (T & r1 & _ & _ & Hw).
    destruct r1 as [[]|e|p].
    + destruct (IH (T :: ctx)) as [r Hrest].
      exists r. right. destruct Hrest as [Hrest | [T' Hrest]].
      * exists T. intros db. cbn [materializeFrom]. unfold bind.
        rewrite Hw. unfold seen. rewrite lookup_insert_eq. apply Hrest.
      * exists T'. intros db. cbn [materializeFrom]. unfold bind.
        rewrite Hw. unfold seen. rewrite lookup_insert_eq, Hrest.
        rewrite insert_insert_eq. reflexivity.
    + exists (Err e). right. exists T. intros db.
      cbn [materializeFrom]. unfold bind. rewrite Hw. reflexivity.
    + exists (Panicked p). right. exists T. intros db.
      cbn [materializeFrom]. unfold bind. rewrite Hw. reflexivity.
  - exists (Err ErrNilFrame). left. reflexivity.
Qed.

Lemma materialize_shape (frames : list (option Frame)) :
  exists r : Res unit,
    (forall db : Database, materialize E tableName frames db = (db, r)) \/
    exists T : Table,
      forall db : Database,
        materialize E tableName frames db = (<[tableName := T]> db, r).
Proof. apply materializeFrom_shape. Qed.


(** Materializing again over the database just written changes nothing. *)
Lemma materialize_again (frames : list (option Frame)) (db : Database) :
  materialize E tableName frames (fst (materialize E tableName frames db))
  = materialize E tableName frames db.
Proof.
  destruct (materialize_shape frames) as [r [H | [T H]]].
  - rewrite !H. reflexivity.
  - rewrite !H. cbn [fst]. rewrite insert_insert_eq. reflexivity.
Qed.

End Materializer.

(** The session of the call decides on a later frame: a frame that is
    accepted as the first of a call can be rejected as the second. *)
Example later_frame_meets_the_session :
  snd (materialize sessionKeeping "t" [Some timeFrame] NewInMemoryDB) = Ret tt /\
  snd (materialize sessionKeeping "t" [Some labelFrame; Some timeFrame]
         NewInMemoryDB)
  = Err (ErrInsertingRow 0 "row does not fit the table of the session").
Proof. split; vm_compute; reflexivity. Qed.

(** ** The result builder *)

Lemma fieldExtends_refl (a : Field) : fieldExtends a a.
Proof. split; [|split]; reflexivity. Qed.

Lemma grows_refl (f : Frame) : grows f f.
Proof.
  split; [reflexivity|]. apply Forall_Forall2_diag, Forall_forall.
  intros; apply fieldExtends_refl.
Qed.

Lemma grows_trans (f g h : Frame) : grows f g -> grows g h -> grows f h.
Proof.
  intros [Hn1 H1] [Hn2 H2]. split; [congruence|].
  eapply Forall2_trans; [|exact H1|exact H2].
  intros a b c (? & ? & ?) (? & ? & ?). repeat split; try congruence.
  etrans; eassumption.
Qed.

Lemma grows_length (f g : Frame) :
  grows f g -> length (Fields g) = length (Fields f).
Proof. intros [_ H]. symmetry. eapply Forall2_length, H. Qed.

Lemma appendTo_grows (i : nat) (v : GoValue) (f : Frame) :
  grows f (fst (appendTo i v f)).
Proof.
  unfold appendTo. destruct (Fields f !! i) as [fld|] eqn:Hi;
    [|apply grows_refl].
  unfold Append. destruct (accepts fld v); [|apply grows_refl].
  split; [reflexivity|]. cbn [fst Fields].
  rewrite <- (list_insert_id (Fields f) i fld Hi) at 1.
  apply Forall2_insert.
  - apply Forall_Forall2_diag, Forall_forall. intros; apply fieldExtends_refl.
  - repeat split. cbn. apply prefix_app_r. reflexivity.
Qed.

Lemma appendValue_grows (schema : Schema) (i : nat) (v : GoValue) (f : Frame) :
  grows f (fst (appendValue schema i v f)).
Proof.
  destruct v; cbn [appendValue]; try apply appendTo_grows;
    destruct (schema !! i); apply grows_refl.
Qed.

Lemma forEachFrom_grows {A} (body : nat -> A -> M Frame unit) :
  (forall i x f, grows f (fst (body i x f))) ->
  forall l i f, grows f (fst (forEachFrom i l body f)).
Proof.
  intros Hbody. induction l as [|x l IH]; intros i f; [apply grows_refl|].
  cbn [forEachFrom]. unfold bind. specialize (Hbody i x f).
  destruct (body i x f) as [f' [[]|e|p]]; cbn [fst] in *; try exact Hbody.
  eapply grows_trans; [exact Hbody | apply IH].
Qed.

(** Reading rows appends values and does nothing else to the frame. *)
Lemma readRows_grows (schema : Schema) (iter : RowIter) (f : Frame) :
  grows f (fst (readRows iter schema f)).
Proof.
  revert f. induction iter as [|[row|cause|reason] iter IH]; intros f;
    [apply grows_refl | | apply grows_refl..].
  cbn [readRows]. unfold bind.
  pose proof (forEachFrom_grows (appendValue schema)
                (appendValue_grows schema) row 0 f) as Hrow.
  destruct (forEachFrom 0 row (appendValue schema) f) as [f' [[]|e|p]];
    cbn [fst] in *; try exact Hrow.
  eapply grows_trans; [exact Hrow | apply IH].
Qed.

(** Reading a stream is reading a first part and then the rest. *)
Lemma readRows_app (schema : Schema) (iter1 iter2 : RowIter) (f : Frame) :
  readRows (iter1 ++ iter2) schema f =
  (readRows iter1 schema ;;; readRows iter2 schema) f.
Proof.
  revert f. induction iter1 as [|[row|cause|reason] iter1 IH]; intros f;
    [reflexivity | | reflexivity..].
  cbn [app readRows]. unfold bind in *.
  destruct (forEachFrom 0 row (appendValue schema) f) as [f' [[]|e|p]];
    [apply IH | reflexivity..].
Qed.

(** The only error of the first loop is the one of its type switch. *)
Lemma createFields_result (schema : Schema) (f : Frame) :
  let '(f', r) := createFields schema f in
  Name f' = Name f /\
  ((r = Ret tt /\ length (Fields f') = length (Fields f) + length schema) \/
   (exists col ty, r = Err (ErrUnsupportedColumnType col ty))).
Proof.
  revert f. induction schema as [|col schema IH]; intros f.
  - cbn. split; [reflexivity|]. left. split; [reflexivity | lia].
  - unfold createFields in *. cbn [forEach]. unfold bind.
    destruct (fieldForColumn col) as [e|field] eqn:Hcol.
    + cbn. split; [reflexivity|]. right.
      unfold fieldForColumn in Hcol.
      destruct (isNumberType _); [discriminate|].
      destruct (isStringType _); [discriminate|].
      injection Hcol as <-. eauto.
    + cbn [modify]. specialize (IH (appendField field f)).
      destruct (forEach schema _ (appendField field f)) as [f' r].
      destruct IH as [Hn IH]. split; [exact Hn|].
      destruct IH as [[-> Hlen] | Herr]; [left | right; exact Herr].
      split; [reflexivity|]. rewrite Hlen. cbn. rewrite length_app. cbn. lia.
Qed.

Lemma convertToDataFrame_Name (iter : RowIter) (schema : Schema) (f : Frame) :
  Name (fst (convertToDataFrame iter schema f)) = Name f.
Proof.
  unfold convertToDataFrame, bind.
  pose proof (createFields_result schema f) as H.
  destruct (createFields schema f) as [f' [[]|e|p]]; destruct H as [Hn _];
    cbn [fst]; try exact Hn.
  rewrite <- Hn. symmetry. apply (readRows_grows schema iter f').
Qed.

(** ** The call as a whole *)

(** [QueryFramesInto] step by step. *)
Lemma QueryFramesInto_run (E : Engine) (tableName query : string)
    (frames : list (option Frame)) (db : Database) (f : Frame) :
  QueryFramesInto E tableName query frames (db, f) =
  let '(db', r) := materialize E tableName frames db in
  match r with
  | Ret _ =>
      match engineQuery E db' query with
      | inr (schema, iter) =>
          let '(f', r') := convertToDataFrame iter schema (setName tableName f) in
          ((engineEffect E db' query, f'), r')
      | inl cause =>
          ((engineEffect E db' query, setName tableName f), Err (ErrQuery cause))
      end
  | Err e => ((db', setName tableName f), Err e)
  | Panicked p => ((db', setName tableName f), Panicked p)
  end.
Proof.
  unfold QueryFramesInto, bind, onFst, onSnd, modify, Query. cbn [fst snd].
  destruct (materialize E tableName frames db) as [db' [[]|e|p]];
    [|reflexivity..].
  cbn [fst snd]. destruct (engineQuery E db' query) as [cause|[schema iter]];
    reflexivity.
Qed.

(** The database a call leaves is the catalog its statement ran against,
    as the statement left it when it was reached. *)
Lemma QueryFramesInto_store (E : Engine) (tableName query : string)
    (frames : list (option Frame)) (db : Database) (f : Frame) :
  storeOf (QueryFramesInto E tableName query frames (db, f))
  = match snd (materialize E tableName frames db) with
    | Ret _ => engineEffect E (catalogAtQuery E tableName frames db) query
    | _ => catalogAtQuery E tableName frames db
    end.
Proof.
  rewrite QueryFramesInto_run. unfold catalogAtQuery.
  destruct (materialize E tableName frames db) as [db' [[]|e|p]];
    [|reflexivity..].
  destruct (engineQuery E db' query) as [cause|[schema iter]]; [reflexivity|].
  destruct (convertToDataFrame _ _ _). reflexivity.
Qed.

(** ** Rows of a frame *)

Lemma forEach_app {St A} (l1 l2 : list A) (body : A -> M St unit) (s : St) :
  forEach (l1 ++ l2) body s = (forEach l1 body ;;; forEach l2 body) s.
Proof.
  revert s. induction l1 as [|x l1 IH]; intros s; [reflexivity|].
  cbn [app forEach]. unfold bind in *.
  destruct (body x s) as [s' [[]|e|p]]; [apply IH | reflexivity..].
Qed.

(** Reading row [i] gives the row, or panics at the first field without an
    [i]-th value. *)
Lemma rowAt_spec (fields : list Field) (i : nat) :
  exists r : Res Row,
    (forall St (s : St), rowAt fields i s = (s, r)) /\
    match r with
    | Ret row => rowIs fields i row
    | Err _ => False
    | Panicked p =>
        exists field, field ∈ fields /\ Len field <= i /\
          p = PanicIndexOutOfRange i (Len field)
    end.
Proof.
  induction fields as [|fld fields [r [Hrun Hr]]].
  - exists (Ret []). split; [reflexivity | constructor].
  - cbn [rowAt]. unfold At. destruct (values fld !! i) as [v|] eqn:Hv.
    + destruct r as [row|e|p].
      * exists (Ret (v :: row)). split.
        -- intros St s. unfold bind, ret. rewrite Hrun. reflexivity.
        -- constructor; assumption.
      * destruct Hr.
      * exists (Panicked p). split.
        -- intros St s. unfold bind, ret. rewrite Hrun. reflexivity.
        -- destruct Hr as (field & Hin & Hlen & ->).
           exists field. split; [right; exact Hin | split; [exact Hlen | reflexivity]].
    + exists (Panicked (PanicIndexOutOfRange i (Len fld))). split.
      * reflexivity.
      * exists fld. split; [left|].
        split; [apply lookup_ge_None; exact Hv | reflexivity].
Qed.

Lemma rowIs_exists (fields : list Field) (i : nat) :
  Forall (fun field => i < Len field) fields -> exists row, rowIs fields i row.
Proof.
  induction 1 as [|fld fields Hlt _ [row IH]]; [exists []; constructor|].
  destruct (lookup_lt_is_Some_2 (values fld) i Hlt) as [v Hv].
  exists (v :: row). constructor; assumption.
Qed.

Lemma rowIs_short (fields : list Field) (i : nat) (row : Row) (field : Field) :
  rowIs fields i row -> field ∈ fields -> i < Len field.
Proof.
  intros Hrow Hin. apply list_elem_of_lookup in Hin as [j Hj].
  destruct (Forall2_lookup_l _ _ _ _ _ Hrow Hj) as (v & _ & Hv).
  apply lookup_lt_Some in Hv. exact Hv.
Qed.

(** What the insertion loop does from row [i] on, for any engine: it
    appends rows of the frame in order, and ends after the last row, at a
    rejected row, or at a row some field does not have. *)
Lemma insertRows_trace (E : Engine) (ctx : Session) (tableName : string)
    (frame : Frame) (cnt i : nat) (table : Table) :
  exists (T : Table) (new : list Row) (r : Res unit),
    (forall db : Database,
        insertRows E ctx tableName frame table (seq i cnt)
          (<[tableName := table]> db)
        = (<[tableName := T]> db, r)) /\
    tblName T = tblName table /\ tblSchema T = tblSchema table /\
    tblRows T = tblRows table ++ new /\
    (forall j row, new !! j = Some row -> rowIs (Fields frame) (i + j) row) /\
    match r with
    | Ret _ => length new = cnt
    | Err e =>
        length new < cnt /\
        exists row cause,
          rowIs (Fields frame) (i + length new) row /\
          tableInsert E ctx T row = Some cause /\
          e = ErrInsertingRow (i + length new) cause
    | Panicked p =>
        length new < cnt /\
        exists field, field ∈ Fields frame /\ Len field <= i + length new /\
          p = PanicIndexOutOfRange (i + length new) (Len field)
    end.
Proof.
  revert i table. induction cnt as [|cnt IH]; intros i table.
  - exists table, [], (Ret tt). rewrite app_nil_r.
    repeat split; try reflexivity. intros j row Hj. discriminate Hj.
  - cbn [seq insertRows].
    destruct (rowAt_spec (Fields frame) i) as [[row|e|p] [Hrun Hr]].
    + destruct (tableInsert E ctx table row) as [cause|] eqn:Hins.
      * exists table, [], (Err (ErrInsertingRow i cause)). rewrite app_nil_r.
        split; [intros db; unfold bind; rewrite Hrun, Hins; reflexivity|].
        repeat split; try reflexivity; cbn [length].
        -- intros j row' Hj. discriminate Hj.
        -- lia.
        -- exists row, cause. rewrite Nat.add_0_r. auto.
      * destruct (IH (S i) (addRow table row))
          as (T & new & r & Hloop & Hn & Hs & Hrows & Hnew & Hend).
        exists T, (row :: new), r.
        split.
        { intros db. unfold bind at 1. rewrite Hrun, Hins.
          unfold bind, AddTable, modify. rewrite insert_insert_eq.
          apply Hloop. }
        split; [exact Hn|]. split; [exact Hs|].
        split; [rewrite Hrows; cbn; rewrite <- app_assoc; reflexivity|].
        split.
        { intros [|j] row' Hj.
          - injection Hj as <-. rewrite Nat.add_0_r. exact Hr.
          - rewrite Nat.add_succ_r. apply (Hnew j row' Hj). }
        cbn [length]. rewrite Nat.add_succ_r.
        destruct r as [[]|e|p]; [lia| |].
        -- destruct Hend as [Hlt Hex]. split; [lia | exact Hex].
        -- destruct Hend as [Hlt Hex]. split; [lia | exact Hex].
    + destruct Hr.
    + exists table, [], (Panicked p). rewrite app_nil_r.
      split; [intros db; unfold bind; rewrite Hrun; reflexivity|].
      repeat split; try reflexivity; cbn [length].
      * intros j row' Hj. discriminate Hj.
      * lia.
      * rewrite Nat.add_0_r. exact Hr.
Qed.

(** The same for [writeDataframeToDb]: the table it leaves and why it
    ends. *)
Lemma writeDataframeToDb_trace (E : Engine) (ctx : Session)
    (tableName : string) (frame : Frame) :
  exists (T : Table) (r : Res unit),
    (forall db : Database,
        writeDataframeToDb E ctx tableName (Some frame) db
        = (<[tableName := T]> db, r)) /\
    tblName T = tableName /\ tblSchema T = schemaOf tableName frame /\
    rowsAre (Fields frame) (tblRows T) /\
    match r with
    | Ret _ => length (tblRows T) = Rows frame
    | Err e =>
        length (tblRows T) < Rows frame /\
        exists row cause,
          rowIs (Fields frame) (length (tblRows T)) row /\
          tableInsert E ctx T row = Some cause /\
          e = ErrInsertingRow (length (tblRows T)) cause
    | Panicked p =>
        length (tblRows T) < Rows frame /\
        exists field, field ∈ Fields frame /\ Len field <= length (tblRows T) /\
          p = PanicIndexOutOfRange (length (tblRows T)) (Len field)
    end.
Proof.
  destruct (insertRows_trace E ctx tableName frame (Rows frame) 0
              (NewTable tableName (schemaOf tableName frame)))
    as (T & new & r & Hloop & Hn & Hs & Hrows & Hnew & Hend).
  cbn [NewTable tblRows tblName tblSchema app] in *. subst new.
  exists T, r.
  split; [intros db; unfold writeDataframeToDb, bind, AddTable, modify;
          apply Hloop|].
  split; [exact Hn|]. split; [exact Hs|]. split; [exact Hnew|].
  exact Hend.
Qed.

(** * The claims *)

(** C1.  The third case of [TestQueryFramesInto], for any engine and any
    statement: the input frame named [inputFrameRefId] is written under
    the output name [sqlExpressionRefId], and the catalog the statement
    runs against has no table [inputFrameRefId].  The database the call
    leaves is that catalog, as the statement left it when it was
    reached. *)
Theorem input_frame_stored_under_output_name (E : Engine) (query : string) :
  let r := Evaluate E NewInMemoryDB "sqlExpressionRefId" query
             [Some typosFrame] in
  let c := catalogAtQuery E "sqlExpressionRefId" [Some typosFrame]
             NewInMemoryDB in
  c !! "inputFrameRefId" = None /\
  (exists table, c !! "sqlExpressionRefId" = Some table /\
     tblSchema table = schemaOf "sqlExpressionRefId" typosFrame) /\
  (storeOf r = c \/ storeOf r = engineEffect E c query).
Proof.
  cbv zeta. unfold Evaluate. rewrite QueryFramesInto_store.
  unfold catalogAtQuery, materialize. cbn [materializeFrom]. unfold bind.
  destruct (writeDataframeToDb_shape E "sqlExpressionRefId" [] typosFrame)
    as (T & r & HT & _ & Hw).
  rewrite Hw. split; [|split].
  - destruct r as [[]|e|p]; cbn [fst ret];
      (rewrite lookup_insert_ne; [apply lookup_empty | discriminate]).
  - exists T. split; [|exact HT].
    destruct r as [[]|e|p]; cbn [fst ret]; apply lookup_insert_eq.
  - destruct r as [[]|e|p]; cbn [fst snd ret]; auto.
Qed.

Lemma convertDataType_unsupported (t : FieldType) :
  supported t = false -> convertDataType t = JSON.
Proof. destruct t; cbn; congruence. Qed.

(** C2, as the code has it.  A field whose type is outside the supported
    enumeration becomes a JSON column: the table is defined with it, the
    only error the materializer can then return is the one of a rejected
    row, and a frame without rows is materialized without error. *)
Theorem unsupported_type_becomes_json (E : Engine) (ctx : Session)
    (tableName : string) (frame : Frame) (db : Database) (i : nat)
    (field : Field) :
  Fields frame !! i = Some field ->
  supported (FType field) = false ->
  let '(db', r) := writeDataframeToDb E ctx tableName (Some frame) db in
  (exists table col,
     db' !! tableName = Some table /\ tblSchema table !! i = Some col /\
     colName col = FName field /\ colType col = JSON) /\
  insertionResult r /\
  (Rows frame = 0 -> r = Ret tt).
Proof.
  intros Hi Hsup.
  destruct (writeDataframeToDb_shape E tableName ctx frame)
    as (T & r & HT & Hr & Hw).
  pose proof (Hw db) as Hrun. rewrite Hrun. split; [|split; [exact Hr|]].
  - exists T. eexists. split; [apply lookup_insert_eq|].
    rewrite HT. unfold schemaOf. rewrite list_lookup_fmap, Hi. cbn.
    split; [reflexivity|]. split; [reflexivity|].
    apply convertDataType_unsupported, Hsup.
  - intros Hrows. unfold writeDataframeToDb in Hrun. rewrite Hrows in Hrun.
    cbv [bind AddTable modify seq insertRows ret] in Hrun. congruence.
Qed.

Lemma unsupported_type_becomes_json_witness :
  let '(db', r) :=
    writeDataframeToDb (answering (inr literalOne)) [] "A"
      (Some nullableFrame) NewInMemoryDB in
  (exists table col,
     db' !! "A" = Some table /\ tblSchema table !! 0 = Some col /\
     colName col = "value" /\ colType col = JSON) /\
  insertionResult r /\
  (Rows nullableFrame = 0 -> r = Ret tt).
Proof.
  apply (unsupported_type_becomes_json (answering (inr literalOne)) [] "A"
           nullableFrame NewInMemoryDB 0
           (mkField "value" FieldTypeNullableFloat64 []));
    reflexivity.
Defined.

(** C2 fails as stated: a frame with a [*float64] field, outside the
    supported enumeration, is materialized, the statement is executed and
    the call succeeds. *)
Lemma unsupported_type_is_not_rejected :
  let r := Evaluate (answering (inr literalOne)) NewInMemoryDB "A"
             "SELECT '1' AS n;" [Some nullableFrame] in
  Forall (fun field => supported (FType field) = false) (Fields nullableFrame)
  /\ resultOf r = Ret tt
  /\ Fields (frameOf r) = [mkField "n" FieldTypeString [VString "1"]]
  /\ (tblSchema <$> storeOf r !! "A")
     = Some [{| colName := "value"; colType := JSON; Nullable := true;
                Source := "A" |}].
Proof.
  cbv zeta. split; [repeat constructor|].
  split; [reflexivity|]. split; [reflexivity|].
  vm_compute. reflexivity.
Qed.

(** ** A column of times *)

(** C3, as the code has it.  A frame with one column of times is written
    under the output name of the call, as a table with one timestamp
    column.  When the engine accepts its rows and answers the statement
    with the schema of that table, the call ends with the error of the
    first type switch for that column, whatever the row stream is, and
    the frame of the caller has no field. *)
Theorem time_column_is_refused (E : Engine) (db : Database)
    (outputName query fname c : string) (vals : list GoValue) :
  (forall t row, tableInsert E [] t row = None) ->
  (forall (db' : Database) t,
      db' !! outputName = Some t ->
      exists iter, engineQuery E db' query = inr (tblSchema t, iter)) ->
  let r := Evaluate E db outputName query
             [Some (NewFrame fname [mkField c FieldTypeTime vals])] in
  resultOf r = Err (ErrUnsupportedColumnType c Timestamp) /\
  Fields (frameOf r) = [].
Proof.
  intros Hacc Hscan. cbv zeta. unfold Evaluate. rewrite QueryFramesInto_run.
  unfold materialize. cbn [materializeFrom]. unfold bind.
  destruct (writeDataframeToDb_trace E [] outputName
              (NewFrame fname [mkField c FieldTypeTime vals]))
    as (T & r & Hw & _ & Hs & _ & Hend).
  rewrite Hw. destruct r as [[]|e|p].
  - cbn [ret].
    destruct (Hscan (<[outputName := T]> db) T) as [iter Hq];
      [apply lookup_insert_eq|].
    rewrite Hq, Hs. split; reflexivity.
  - destruct Hend as (_ & row & cause & _ & Hins & _).
    rewrite Hacc in Hins. discriminate.
  - destruct Hend as (Hlt & field & Hin & Hshort & _).
    apply list_elem_of_singleton in Hin. subst field.
    cbn in Hlt, Hshort. lia.
Qed.

Lemma time_column_is_refused_witness :
  let r := Evaluate (scanning "t") NewInMemoryDB "t" "SELECT * FROM t"
             [Some timeFrame] in
  resultOf r = Err (ErrUnsupportedColumnType "time" Timestamp) /\
  Fields (frameOf r) = [].
Proof.
  apply (time_column_is_refused (scanning "t") NewInMemoryDB "t"
           "SELECT * FROM t" "t" "time" [VTime 1700000000000000000]).
  - reflexivity.
  - intros db' t Ht. cbn. rewrite Ht. eauto.
Defined.

(** C3 fails as stated: a column of times, written as table [t] and read
    back with [SELECT * FROM t], ends the call with an error and no
    field. *)
Lemma time_column_does_not_round_trip :
  let r := Evaluate (scanning "t") NewInMemoryDB "t" "SELECT * FROM t"
             [Some timeFrame] in
  supported FieldTypeTime = true /\
  resultOf r = Err (ErrUnsupportedColumnType "time" Timestamp) /\
  Fields (frameOf r) = [] /\
  Fields (frameOf r) <> Fields timeFrame.
Proof. vm_compute. repeat split; discriminate. Qed.

(** ** Failures of the result builder *)

(** The errors of the materializer are its own. *)
Lemma materialize_errors (E : Engine) (tableName : string)
    (frames : list (option Frame)) (db : Database) (e : Error) :
  snd (materialize E tableName frames db) = Err e ->
  errorKind e = MaterializationError.
Proof.
  unfold materialize. generalize (@nil Table). revert db.
  induction frames as [|[frame|] frames IH]; intros db ctx.
  - discriminate.
  - cbn [materializeFrom]. unfold bind.
    destruct (writeDataframeToDb_shape E tableName ctx frame)
      as (T & r & _ & Hr & Hw).
    rewrite Hw. destruct Hr as [-> | [(i & cause & ->) | [p ->]]].
    + apply IH.
    + cbn. intros [= <-]. reflexivity.
    + discriminate.
  - cbn. intros [= <-]. reflexivity.
Qed.

(** A value the second type switch refuses leaves the frame as it
    is. *)
Lemma appendValue_Err (schema : Schema) (i : nat) (v : GoValue)
    (f f' : Frame) (col goType : string) :
  appendValue schema i v f = (f', Err (ErrUnsupportedValueType col goType)) ->
  f' = f /\
  exists column, schema !! i = Some column /\ col = colName column /\
    goType = goTypeName v /\ inSwitch v = false.
Proof.
  assert (forall w, snd (appendTo i w f)
                    <> Err (ErrUnsupportedValueType col goType)) as Hto.
  { intros w. unfold appendTo. destruct (Fields f !! i) as [fld|];
      [|discriminate]. destruct (Append fld w); discriminate. }
  destruct v; cbn [appendValue inSwitch goTypeName];
    try (intros H; destruct (Hto _ (f_equal snd H)));
    destruct (schema !! i) as [column|]; try discriminate;
    intros [= <- <- <-]; eauto 10.
Qed.

(** A row that ends with the error of a value: the values before it were
    appended, and the value was refused. *)
Lemma forEachFrom_value_error (schema : Schema) (row : Row) (i : nat)
    (f f' : Frame) (col goType : string) :
  forEachFrom i row (appendValue schema) f
  = (f', Err (ErrUnsupportedValueType col goType)) ->
  exists pre bad post,
    row = pre ++ bad :: post /\
    forEachFrom i pre (appendValue schema) f = (f', Ret tt) /\
    appendValue schema (i + length pre) bad f'
    = (f', Err (ErrUnsupportedValueType col goType)).
Proof.
  revert i f. induction row as [|v row IH]; intros i f; [discriminate|].
  cbn [forEachFrom]. unfold bind.
  destruct (appendValue schema i v f) as [f1 [[]|e|p]] eqn:Hv.
  - intros Hrest. destruct (IH _ _ Hrest) as (pre & bad & post & -> & Hpre & Hbad).
    exists (v :: pre), bad, post. split; [reflexivity|].
    cbn [forEachFrom length]. unfold bind. rewrite Hv, Nat.add_succ_r.
    auto.
  - intros [= <- ->]. destruct (appendValue_Err _ _ _ _ _ _ _ Hv) as [-> _].
    exists [], v, row. cbn. rewrite Nat.add_0_r. auto.
  - discriminate.
Qed.

(** A stream that ends with the error of a value: the rows before the
    row of the value were decoded, and so were the values before it in
    its row. *)
Lemma readRows_value_error (schema : Schema) (iter : RowIter) (f f' : Frame)
    (col goType : string) :
  readRows iter schema f = (f', Err (ErrUnsupportedValueType col goType)) ->
  exists decoded pre bad post rest f1,
    iter = decoded ++ IterRow (pre ++ bad :: post) :: rest /\
    readRows decoded schema f = (f1, Ret tt) /\
    forEachFrom 0 pre (appendValue schema) f1 = (f', Ret tt) /\
    appendValue schema (length pre) bad f'
    = (f', Err (ErrUnsupportedValueType col goType)).
Proof.
  revert f. induction iter as [|[row|cause|reason] iter IH]; intros f;
    try discriminate.
  cbn [readRows]. unfold bind.
  destruct (forEachFrom 0 row (appendValue schema) f) as [f1 [[]|e|p]] eqn:Hrow.
  - intros Hrest.
    destruct (IH _ Hrest)
      as (decoded & pre & bad & post & rest & f2 & -> & Hdec & Hpre & Hbad).
    exists (IterRow row :: decoded), pre, bad, post, rest, f2.
    split; [reflexivity|]. cbn [readRows]. unfold bind. rewrite Hrow. auto.
  - intros [= <- ->].
    destruct (forEachFrom_value_error _ _ _ _ _ _ _ Hrow)
      as (pre & bad & post & -> & Hpre & Hbad).
    exists [], pre, bad, post, iter, f. cbn. auto.
  - discriminate.
Qed.

(** C4, as the code has it.  When a call ends with the error of an
    undecodable value, a decode error, the frame of the caller keeps what
    the result builder had written: it has the output name and one field
    for every column of the result, and it is the frame in which the rows
    before the row of that value were decoded and the values before it in
    its row were appended - every value appended before the failure is
    there, and the refused value is not. *)
Theorem decode_failure_leaves_partial_frame (E : Engine)
    (tableName query : string) (frames : list (option Frame))
    (db : Database) (f : Frame) (col goType : string) :
  resultOf (QueryFramesInto E tableName query frames (db, f))
  = Err (ErrUnsupportedValueType col goType) ->
  let r := QueryFramesInto E tableName query frames (db, f) in
  errorKind (ErrUnsupportedValueType col goType) = DecodeError /\
  exists schema iter,
    engineQuery E (catalogAtQuery E tableName frames db) query
    = inr (schema, iter) /\
    Name (frameOf r) = tableName /\
    length (Fields (frameOf r)) = length (Fields f) + length schema /\
    (exists decoded pre bad post rest f1 column,
       iter = decoded ++ IterRow (pre ++ bad :: post) :: rest /\
       convertToDataFrame decoded schema (setName tableName f) = (f1, Ret tt) /\
       forEachFrom 0 pre (appendValue schema) f1 = (frameOf r, Ret tt) /\
       schema !! length pre = Some column /\ col = colName column /\
       goType = goTypeName bad /\ inSwitch bad = false) /\
    forall (decoded rest : RowIter) (f1 : Frame),
      iter = decoded ++ rest ->
      convertToDataFrame decoded schema (setName tableName f) = (f1, Ret tt) ->
      grows f1 (frameOf r).
Proof.
  cbv zeta. rewrite QueryFramesInto_run. unfold catalogAtQuery.
  pose proof (materialize_errors E tableName frames db) as Hmat.
  destruct (materialize E tableName frames db) as [db' [[]|e|p]];
    cbn [snd fst] in *.
  2:{ cbn. intros [= ->]. specialize (Hmat _ eq_refl). discriminate. }
  2:{ discriminate. }
  unfold storeOf, frameOf, resultOf.
  destruct (engineQuery E db' query) as [cause|[schema iter]] eqn:Hq;
    [discriminate|].
  unfold convertToDataFrame, bind.
  pose proof (createFields_result schema (setName tableName f)) as Hc.
  destruct (createFields schema (setName tableName f)) as [fc rc] eqn:Hcf.
  destruct Hc as [Hname [[-> Hlen] | (c' & ty' & ->)]]; [|discriminate].
  pose proof (readRows_grows schema iter fc) as Hg.
  destruct (readRows iter schema fc) as [f' r'] eqn:Hread.
  cbn [fst snd] in *. intros ->. split; [reflexivity|].
  exists schema, iter. split; [reflexivity|].
  split; [destruct Hg as [<- _]; exact Hname|].
  split; [rewrite (grows_length _ _ Hg); exact Hlen|].
  split.
  - destruct (readRows_value_error _ _ _ _ _ _ Hread)
      as (decoded & pre & bad & post & rest & f1 & Hiter & Hdec & Hpre & Hbad).
    destruct (appendValue_Err _ _ _ _ _ _ _ Hbad)
      as (_ & column & Hcol & Hc1 & Hc2 & Hc3).
    exists decoded, pre, bad, post, rest, f1, column.
    rewrite Hcf, Hdec. auto 10.
  - intros decoded rest f1 -> Hdone. rewrite ?Hcf in Hdone.
    rewrite readRows_app in Hread. unfold bind in Hread.
    destruct (readRows decoded schema fc) as [fd [[]|e|p]]; try discriminate.
    injection Hdone as <-.
    pose proof (readRows_grows schema rest fd) as Hrest.
    rewrite Hread in Hrest. exact Hrest.
Qed.

Lemma decode_failure_leaves_partial_frame_witness :
  let r := QueryFramesInto (answering (inr partialAnswer)) "A"
             "SELECT 'x' AS a, CAST(NULL AS CHAR) AS b;" []
             (NewInMemoryDB, zeroFrame) in
  errorKind (ErrUnsupportedValueType "b" "<nil>") = DecodeError /\
  exists schema iter,
    engineQuery (answering (inr partialAnswer))
      (catalogAtQuery (answering (inr partialAnswer)) "A" [] NewInMemoryDB)
      "SELECT 'x' AS a, CAST(NULL AS CHAR) AS b;"
    = inr (schema, iter) /\
    Name (frameOf r) = "A" /\
    length (Fields (frameOf r)) = length (Fields zeroFrame) + length schema /\
    (exists decoded pre bad post rest f1 column,
       iter = decoded ++ IterRow (pre ++ bad :: post) :: rest /\
       convertToDataFrame decoded schema (setName "A" zeroFrame) = (f1, Ret tt) /\
       forEachFrom 0 pre (appendValue schema) f1 = (frameOf r, Ret tt) /\
       schema !! length pre = Some column /\ "b" = colName column /\
       "<nil>" = goTypeName bad /\ inSwitch bad = false) /\
    forall (decoded rest : RowIter) (f1 : Frame),
      iter = decoded ++ rest ->
      convertToDataFrame decoded schema (setName "A" zeroFrame) = (f1, Ret tt) ->
      grows f1 (frameOf r).
Proof.
  apply (decode_failure_leaves_partial_frame (answering (inr partialAnswer))
           "A" "SELECT 'x' AS a, CAST(NULL AS CHAR) AS b;" []
           NewInMemoryDB zeroFrame "b" "<nil>").
  reflexivity.
Defined.

(** C4 fails as stated: the engine answers with a string and a null in
    one row.  The call ends with a decode error at the null, and the
    frame of the caller holds both fields and the string decoded before
    the failure. *)
Lemma failed_call_leaves_fields_and_values :
  let r := Evaluate (answering (inr partialAnswer)) NewInMemoryDB "A"
             "SELECT 'x' AS a, CAST(NULL AS CHAR) AS b;" [] in
  resultOf r = Err (ErrUnsupportedValueType "b" "<nil>") /\
  errorKind (ErrUnsupportedValueType "b" "<nil>") = DecodeError /\
  Fields (frameOf r)
  = [mkField "a" FieldTypeString [VString "x"]; mkField "b" FieldTypeString []].
Proof. vm_compute. repeat split. Qed.

(** C6, as the code has it.  A nil in a row is no case of the second type
    switch: once the rows before it and the values before it in its row
    are decoded, the call ends with the error of an unsupported value of
    type [<nil>] for the column of the nil, and nothing is appended for
    it. *)
Theorem null_value_ends_the_call (schema : Schema) (decoded rest : RowIter)
    (pre post : Row) (f f1 f2 : Frame) (col : Column) :
  convertToDataFrame decoded schema f = (f1, Ret tt) ->
  forEachFrom 0 pre (appendValue schema) f1 = (f2, Ret tt) ->
  schema !! length pre = Some col ->
  convertToDataFrame (decoded ++ IterRow (pre ++ VNil :: post) :: rest) schema f
  = (f2, Err (ErrUnsupportedValueType (colName col) "<nil>")).
Proof.
  unfold convertToDataFrame, bind. intros Hdone Hpre Hcol.
  destruct (createFields schema f) as [fc [[]|e|p]]; try discriminate.
  rewrite readRows_app. unfold bind. rewrite Hdone.
  cbn [readRows]. unfold bind. rewrite forEachFrom_app. unfold bind.
  rewrite Hpre. cbn [forEachFrom appendValue]. rewrite Nat.add_0_l, Hcol.
  reflexivity.
Qed.

Lemma null_value_ends_the_call_witness :
  convertToDataFrame ([] ++ IterRow ([] ++ VNil :: []) :: []) (fst nullAnswer)
    zeroFrame
  = ({| Name := ""; Fields := [NewField "a" FieldTypeString] |},
     Err (ErrUnsupportedValueType "a" "<nil>")).
Proof.
  apply (null_value_ends_the_call (fst nullAnswer) [] [] [] [] zeroFrame
           {| Name := ""; Fields := [NewField "a" FieldTypeString] |}
           {| Name := ""; Fields := [NewField "a" FieldTypeString] |}
           {| colName := "a"; colType := LongText; Nullable := true;
              Source := "" |});
    reflexivity.
Defined.

(** C6 fails as stated: for a text column and for a numeric column, a row
    with a nil ends the call with an error, and the field has no entry. *)
Lemma null_value_is_not_appended :
  let r := Evaluate (answering (inr nullAnswer)) NewInMemoryDB "A"
             "SELECT a FROM t" [] in
  let r' := Evaluate (answering (inr nullNumberAnswer)) NewInMemoryDB "A"
              "SELECT k FROM t" [] in
  resultOf r = Err (ErrUnsupportedValueType "a" "<nil>") /\
  Fields (frameOf r) = [mkField "a" FieldTypeString []] /\
  resultOf r' = Err (ErrUnsupportedValueType "k" "<nil>") /\
  Fields (frameOf r') = [mkField "k" FieldTypeInt64 []].
Proof. vm_compute. repeat split. Qed.

(** ** The database of the handle *)




(** ** Calls and their frames *)

(** C7.  With no input frames, when the engine answers
    [SELECT '1' AS n;] with one column [n] of a string type and the one
    row ["1"], the call succeeds and the frame has the output name and
    exactly one field: the string field [n] with the values ["1"].  The
    database is as the statement leaves it. *)
Theorem select_literal_one (E : Engine) (db : Database) (outputName : string)
    (col : Column) :
  colName col = "n" ->
  isStringType (colType col) = true ->
  engineQuery E db "SELECT '1' AS n;" = inr ([col], [IterRow [VString "1"]]) ->
  Evaluate E db outputName "SELECT '1' AS n;" []
  = ((engineEffect E db "SELECT '1' AS n;",
      NewFrame outputName [mkField "n" FieldTypeString [VString "1"]]),
     Ret tt).
Proof.
  intros Hname Hty Hq. unfold Evaluate. rewrite QueryFramesInto_run.
  unfold materialize. cbn [materializeFrom ret]. rewrite Hq.
  unfold convertToDataFrame, createFields. cbn [forEach]. unfold bind.
  unfold fieldForColumn. rewrite Hty, Hname.
  destruct (colType col); try discriminate Hty; reflexivity.
Qed.

Lemma select_literal_one_witness :
  Evaluate (answering (inr literalOne)) NewInMemoryDB "sqlExpressionRefId"
    "SELECT '1' AS n;" []
  = ((NewInMemoryDB,
      NewFrame "sqlExpressionRefId"
        [mkField "n" FieldTypeString [VString "1"]]),
     Ret tt).
Proof.
  apply (select_literal_one (answering (inr literalOne)) NewInMemoryDB
           "sqlExpressionRefId"
           {| colName := "n"; colType := LongText; Nullable := false;
              Source := "" |});
    reflexivity.
Defined.

(** The materializer asks the engine for its verdicts on rows only. *)
Lemma materialize_ext (E1 E2 : Engine) (tableName : string)
    (frames : list (option Frame)) (db : Database) :
  (forall ctx t row, tableInsert E2 ctx t row = tableInsert E1 ctx t row) ->
  materialize E2 tableName frames db = materialize E1 tableName frames db.
Proof.
  intros Hsame.
  assert (forall ctx frame rows table d,
            insertRows E2 ctx tableName frame table rows d
            = insertRows E1 ctx tableName frame table rows d) as Hrows.
  { intros ctx frame rows. induction rows as [|i rows IH]; intros table d;
      [reflexivity|].
    cbn [insertRows]. unfold bind.
    destruct (rowAt (Fields frame) i d) as [d' [row|e|p]]; [|reflexivity..].
    rewrite Hsame. destruct (tableInsert E1 ctx table row); [reflexivity|].
    unfold AddTable, modify. apply IH. }
  unfold materialize. generalize (@nil Table). revert db.
  induction frames as [|frame frames IH]; intros db ctx; [reflexivity|].
  cbn [materializeFrom]. unfold bind.
  assert (writeDataframeToDb E2 ctx tableName frame db
          = writeDataframeToDb E1 ctx tableName frame db) as ->.
  { destruct frame as [frame|]; [|reflexivity].
    unfold writeDataframeToDb, bind, AddTable, modify. apply Hrows. }
  destruct (writeDataframeToDb E1 ctx tableName frame db) as [db' [[]|e|p]];
    [apply IH | reflexivity..].
Qed.

(** C8, as the code has it.  Two calls in sequence on one handle with the
    same output name, statement and input frames, each into the zero
    frame.  When the statement of the first call leaves the catalog as it
    is, and the engine accepts in the second call the rows it accepted in
    the first and gives the statement the answer it gave in the first,
    the second call ends as the first and its frame is equal to the frame
    of the first: the second call writes the same table under the same
    name and finds the catalog as the first call had it. *)
Theorem same_call_twice_same_frame (E1 E2 : Engine) (db : Database)
    (outputName query : string) (inputFrames : list (option Frame)) :
  engineEffect E1 (catalogAtQuery E1 outputName inputFrames db) query
  = catalogAtQuery E1 outputName inputFrames db ->
  (forall ctx t row, tableInsert E2 ctx t row = tableInsert E1 ctx t row) ->
  engineQuery E2 (catalogAtQuery E1 outputName inputFrames db) query
  = engineQuery E1 (catalogAtQuery E1 outputName inputFrames db) query ->
  let r1 := Evaluate E1 db outputName query inputFrames in
  let r2 := Evaluate E2 (storeOf r1) outputName query inputFrames in
  frameOf r2 = frameOf r1 /\ resultOf r2 = resultOf r1.
Proof.
  intros Heff Hrows Hans. cbv zeta. unfold Evaluate.
  assert (storeOf (QueryFramesInto E1 outputName query inputFrames
                     (db, zeroFrame))
          = catalogAtQuery E1 outputName inputFrames db) as ->.
  { rewrite QueryFramesInto_store.
    destruct (snd (materialize E1 outputName inputFrames db)) as [[]|e|p];
      [exact Heff | reflexivity..]. }
  rewrite !QueryFramesInto_run, (materialize_ext E1 E2 _ _ _ Hrows).
  unfold catalogAtQuery in *. rewrite materialize_again.
  destruct (materialize E1 outputName inputFrames db) as [db' [[]|e|p]];
    cbn [fst] in *; [|split; reflexivity..].
  rewrite Hans.
  destruct (engineQuery E1 db' query) as [cause|[schema iter]];
    [split; reflexivity|].
  destruct (convertToDataFrame iter schema (setName outputName zeroFrame)).
  split; reflexivity.
Qed.

Lemma same_call_twice_same_frame_witness :
  let r1 := Evaluate (answering (inr literalOne)) NewInMemoryDB
              "sqlExpressionRefId" "SELECT '1' AS n;" [Some labelFrame] in
  let r2 := Evaluate (answering (inr literalOne)) (storeOf r1)
              "sqlExpressionRefId" "SELECT '1' AS n;" [Some labelFrame] in
  frameOf r2 = frameOf r1 /\ resultOf r2 = resultOf r1.
Proof.
  apply (same_call_twice_same_frame (answering (inr literalOne))
           (answering (inr literalOne)) NewInMemoryDB "sqlExpressionRefId"
           "SELECT '1' AS n;" [Some labelFrame]);
    reflexivity.
Defined.

(** C8 fails as stated: the handle holds the table [first] of an earlier
    call.  Two calls with the same output name, the same statement
    [DROP TABLE first] and no input frames: the first drops the table and
    its frame gets the field of the engine's answer; the second finds no
    table, ends with the error of the engine and its frame has no
    field. *)
Lemma same_call_twice_differs :
  let r0 := Evaluate (answering (inr literalOne)) NewInMemoryDB "first"
              "SELECT '1' AS n;" [Some labelFrame] in
  let r1 := Evaluate (dropping "first") (storeOf r0) "A"
              "DROP TABLE first" [] in
  let r2 := Evaluate (dropping "first") (storeOf r1) "A"
              "DROP TABLE first" [] in
  Fields (frameOf r1) = [mkField "__ok_result__" FieldTypeInt64 []] /\
  Fields (frameOf r2) = [] /\
  resultOf r2 = Err (ErrQuery "table not found: first") /\
  frameOf r2 <> frameOf r1 /\ resultOf r2 <> resultOf r1.
Proof. vm_compute. repeat split; discriminate. Qed.

(** C9 at a failing input.  For a numeric column the first type switch
    makes a field of 64-bit integers, and the second type switch hands it
    the [float64] of the row: the type assertion of the vector fails and
    the call panics. *)
Theorem float_value_panics (E : Engine) (db : Database)
    (outputName query : string) (col : Column) (bits : Z) :
  isNumberType (colType col) = true ->
  engineQuery E db query = inr ([col], [IterRow [VFloat64 bits]]) ->
  let r := Evaluate E db outputName query [] in
  resultOf r = Panicked (PanicTypeAssertion "int64" "float64") /\
  Fields (frameOf r) = [NewField (colName col) FieldTypeInt64].
Proof.
  intros Hty Hq. cbv zeta. unfold Evaluate. rewrite QueryFramesInto_run.
  unfold materialize. cbn [materializeFrom ret]. rewrite Hq.
  unfold convertToDataFrame, createFields. cbn [forEach]. unfold bind.
  unfold fieldForColumn. rewrite Hty. split; reflexivity.
Qed.

Lemma float_value_panics_witness :
  let r := Evaluate (answering (inr floatAnswer)) NewInMemoryDB "A"
             "SELECT 1.5e0 AS x;" [] in
  resultOf r = Panicked (PanicTypeAssertion "int64" "float64") /\
  Fields (frameOf r) = [NewField "x" FieldTypeInt64].
Proof.
  apply (float_value_panics (answering (inr floatAnswer)) NewInMemoryDB "A"
           "SELECT 1.5e0 AS x;"
           {| colName := "x"; colType := Float64; Nullable := false;
              Source := "" |}
           4609434218613702656);
    reflexivity.
Defined.

(** C10.  Whatever the result of the call - success, an error of the
    materializer, of the engine or of the result builder, or a panic -
    the frame of the caller has the output name: the name is assigned
    first, and no later step changes it. *)
Theorem name_is_set_on_every_call (E : Engine) (tableName query : string)
    (frames : list (option Frame)) (db : Database) (f : Frame) :
  Name (frameOf (QueryFramesInto E tableName query frames (db, f)))
  = tableName /\
  QueryFramesInto E tableName query frames (db, f)
  = QueryFramesInto E tableName query frames (db, setName tableName f).
Proof.
  split; [|reflexivity].
  rewrite QueryFramesInto_run.
  destruct (materialize E tableName frames db) as [db' [[]|e|p]];
    [|reflexivity..].
  destruct (engineQuery E db' query) as [cause|[schema iter]]; [reflexivity|].
  pose proof (convertToDataFrame_Name iter schema (setName tableName f)) as H.
  destruct (convertToDataFrame iter schema (setName tableName f)).
  exact H.
Qed.

(** * Further properties of db.go *)

(** ** What the materializer leaves in the database *)

(** X1.  When the engine accepts every row and every field has at least as
    many values as the first one, the frame is written without error: the
    table has the columns of the fields, in order and by name, and as many
    rows as the first field has values; row [i] holds the [i]-th value of
    every field.  Values a later field has beyond the length of the first
    are not written. *)
Theorem frame_becomes_table (E : Engine) (ctx : Session) (tableName : string)
    (frame : Frame) (db : Database) :
  (forall t row, tableInsert E ctx t row = None) ->
  Forall (fun field => Rows frame <= Len field) (Fields frame) ->
  exists T,
    writeDataframeToDb E ctx tableName (Some frame) db
    = (<[tableName := T]> db, Ret tt) /\
    tblName T = tableName /\
    colName <$> tblSchema T = FName <$> Fields frame /\
    length (tblRows T) = Rows frame /\
    rowsAre (Fields frame) (tblRows T).
Proof.
  intros Hacc Hlen.
  destruct (writeDataframeToDb_trace E ctx tableName frame)
    as (T & r & Hrun & Hn & Hs & Hrows & Hend).
  exists T. destruct r as [[]|e|p].
  - split; [apply Hrun|]. split; [exact Hn|].
    split; [|split; [exact Hend | exact Hrows]].
    rewrite Hs. unfold schemaOf. rewrite <- list_fmap_compose. reflexivity.
  - destruct Hend as (_ & row & cause & _ & Hins & _).
    rewrite Hacc in Hins. discriminate.
  - destruct Hend as (Hlt & field & Hin & Hshort & _).
    rewrite Forall_forall in Hlen. specialize (Hlen field Hin). lia.
Qed.

Lemma frame_becomes_table_witness :
  exists T,
    writeDataframeToDb (answering (inr literalOne)) [] "t" (Some mixedFrame)
      NewInMemoryDB
    = (<["t" := T]> NewInMemoryDB, Ret tt) /\
    tblName T = "t" /\
    colName <$> tblSchema T = FName <$> Fields mixedFrame /\
    length (tblRows T) = Rows mixedFrame /\
    rowsAre (Fields mixedFrame) (tblRows T).
Proof.
  apply (frame_becomes_table (answering (inr literalOne)) [] "t" mixedFrame
           NewInMemoryDB).
  - reflexivity.
  - repeat constructor.
Defined.

(** X2.  When [writeDataframeToDb] returns the error of row [i], the table
    stays in the database with the [i] rows before it: the engine rejected
    row [i] on that table, and nothing is undone. *)
Theorem rejected_row_leaves_partial_table (E : Engine) (ctx : Session)
    (tableName : string) (frame : Frame) (db : Database) (i : nat)
    (cause : string) :
  snd (writeDataframeToDb E ctx tableName (Some frame) db)
  = Err (ErrInsertingRow i cause) ->
  i < Rows frame /\
  exists T row,
    fst (writeDataframeToDb E ctx tableName (Some frame) db)
    = <[tableName := T]> db /\
    tblSchema T = schemaOf tableName frame /\
    length (tblRows T) = i /\
    rowsAre (Fields frame) (tblRows T) /\
    rowIs (Fields frame) i row /\
    tableInsert E ctx T row = Some cause.
Proof.
  destruct (writeDataframeToDb_trace E ctx tableName frame)
    as (T & r & Hrun & Hn & Hs & Hrows & Hend).
  rewrite Hrun. cbn [fst snd]. intros ->.
  destruct Hend as (Hlt & row & cause' & Hrow & Hins & Heq).
  injection Heq as -> ->.
  split; [exact Hlt|]. exists T, row. auto 10.
Qed.

Lemma rejected_row_leaves_partial_table_witness :
  1 < Rows labelFrame /\
  exists T row,
    fst (writeDataframeToDb (rejectingAt 1) [] "t" (Some labelFrame)
           NewInMemoryDB)
    = <["t" := T]> NewInMemoryDB /\
    tblSchema T = schemaOf "t" labelFrame /\
    length (tblRows T) = 1 /\
    rowsAre (Fields labelFrame) (tblRows T) /\
    rowIs (Fields labelFrame) 1 row /\
    tableInsert (rejectingAt 1) [] T row = Some "table is full".
Proof.
  apply (rejected_row_leaves_partial_table (rejectingAt 1) [] "t" labelFrame
           NewInMemoryDB 1 "table is full").
  reflexivity.
Defined.

(** X3.  A frame in which some field is shorter than the first one makes
    [writeDataframeToDb] panic, when the engine accepts every row: with
    [m] the least number of values of a field, the rows before [m] are
    written and reading row [m] is out of range. *)
Theorem short_field_panics (E : Engine) (ctx : Session) (tableName : string)
    (frame : Frame) (db : Database) (m : nat) :
  (forall t row, tableInsert E ctx t row = None) ->
  Forall (fun field => m <= Len field) (Fields frame) ->
  Exists (fun field => Len field = m) (Fields frame) ->
  m < Rows frame ->
  exists T,
    writeDataframeToDb E ctx tableName (Some frame) db
    = (<[tableName := T]> db, Panicked (PanicIndexOutOfRange m m)) /\
    length (tblRows T) = m /\
    rowsAre (Fields frame) (tblRows T).
Proof.
  intros Hacc Hmin Hex Hm.
  destruct (writeDataframeToDb_trace E ctx tableName frame)
    as (T & r & Hrun & Hn & Hs & Hrows & Hend).
  apply Exists_exists in Hex as (short & Hshort & Hlen).
  rewrite Forall_forall in Hmin.
  assert (length (tblRows T) <= m) as Hle.
  { destruct (Nat.le_gt_cases (length (tblRows T)) m) as [|Hgt]; [assumption|].
    destruct (lookup_lt_is_Some_2 _ _ Hgt) as [row Hrow].
    pose proof (rowIs_short _ _ _ _ (Hrows _ _ Hrow) Hshort). lia. }
  exists T. destruct r as [[]|e|p].
  - lia.
  - destruct Hend as (_ & row & cause & _ & Hins & _).
    rewrite Hacc in Hins. discriminate.
  - destruct Hend as (_ & field & Hin & Hfield & ->).
    specialize (Hmin field Hin). specialize (Hrun db).
    assert (length (tblRows T) = m) as Hk by lia.
    assert (Len field = m) as Hf by lia.
    rewrite Hk, Hf in Hrun. split; [exact Hrun|].
    split; [exact Hk | exact Hrows].
Qed.

Lemma short_field_panics_witness :
  exists T,
    writeDataframeToDb (answering (inr literalOne)) [] "t" (Some raggedFrame)
      NewInMemoryDB
    = (<["t" := T]> NewInMemoryDB, Panicked (PanicIndexOutOfRange 1 1)) /\
    length (tblRows T) = 1 /\
    rowsAre (Fields raggedFrame) (tblRows T).
Proof.
  apply (short_field_panics (answering (inr literalOne)) [] "t" raggedFrame
           NewInMemoryDB 1).
  - reflexivity.
  - repeat constructor.
  - apply Exists_cons_tl, Exists_cons_hd. reflexivity.
  - cbn. lia.
Defined.

(** X5.  A nil input frame ends the call with the error of a nil frame:
    the frames before it are written, the frames after it and the
    statement are not reached, and the frame of the caller has the output
    name and no new field. *)
Theorem nil_frame_ends_the_call (E : Engine) (tableName query : string)
    (before after : list (option Frame)) (db : Database) (f : Frame) :
  snd (materialize E tableName before db) = Ret tt ->
  QueryFramesInto E tableName query (before ++ None :: after) (db, f)
  = ((fst (materialize E tableName before db), setName tableName f),
     Err ErrNilFrame).
Proof.
  intros Hok. rewrite QueryFramesInto_run.
  assert (materialize E tableName (before ++ None :: after) db
          = (fst (materialize E tableName before db), Err ErrNilFrame)) as ->;
    [|reflexivity].
  revert Hok. unfold materialize. generalize (@nil Table). revert db.
  induction before as [|frame before IH]; intros db ctx; [reflexivity|].
  cbn [app materializeFrom]. unfold bind.
  destruct (writeDataframeToDb E ctx tableName frame db) as [db' [[]|e|p]];
    [apply IH | discriminate..].
Qed.

Lemma nil_frame_ends_the_call_witness :
  QueryFramesInto (scanning "t") "t" "SELECT * FROM t"
    ([Some labelFrame] ++ None :: [Some timeFrame]) (NewInMemoryDB, zeroFrame)
  = ((fst (materialize (scanning "t") "t" [Some labelFrame] NewInMemoryDB),
      setName "t" zeroFrame),
     Err ErrNilFrame).
Proof.
  apply (nil_frame_ends_the_call (scanning "t") "t" "SELECT * FROM t"
           [Some labelFrame] [Some timeFrame] NewInMemoryDB zeroFrame).
  reflexivity.
Defined.

(** X6.  The materializer of a call never removes a table, and the only
    name under which it can add one is the table name of the call: every
    name in the database when the call starts is in the catalog against
    which its statement runs, and every name in that catalog was in the
    database or is the table name. *)
Theorem materializer_only_adds_its_table (E : Engine) (tableName : string)
    (frames : list (option Frame)) (db : Database) :
  dom db ⊆ dom (catalogAtQuery E tableName frames db) /\
  dom (catalogAtQuery E tableName frames db) ⊆ dom db ∪ {[tableName]}.
Proof.
  unfold catalogAtQuery.
  destruct (materialize_shape E tableName frames) as [r [Hm | [T Hm]]];
    rewrite Hm; clear Hm; cbn [fst];
    [split; [reflexivity | apply union_subseteq_l]|].
  rewrite dom_insert_L. split; [apply union_subseteq_r|].
  rewrite (comm_L (∪)). reflexivity.
Qed.

(** The materializer reads the fields of a frame and not its name. *)
Lemma insertRows_fields (E : Engine) (ctx : Session) (tableName : string)
    (frame frame' : Frame) (rows : list nat) (table : Table) (db : Database) :
  Fields frame = Fields frame' ->
  insertRows E ctx tableName frame table rows db
  = insertRows E ctx tableName frame' table rows db.
Proof.
  intros Hf. revert table db. induction rows as [|i rows IH]; intros table db;
    [reflexivity|].
  cbn [insertRows]. rewrite Hf. unfold bind.
  destruct (rowAt (Fields frame') i db) as [db' [row|e|p]]; [|reflexivity..].
  destruct (tableInsert E ctx table row); [reflexivity|].
  unfold AddTable, modify. apply IH.
Qed.

(** X7.  The names of the input frames are never read: two lists of input
    frames with the same fields, frame by frame, give the same call. *)
Theorem input_frame_names_are_not_read (E : Engine) (tableName query : string)
    (frames frames' : list (option Frame)) (db : Database) (f : Frame) :
  Forall2 (fun a b => Fields <$> a = Fields <$> b) frames frames' ->
  QueryFramesInto E tableName query frames (db, f)
  = QueryFramesInto E tableName query frames' (db, f).
Proof.
  intros Hsame. rewrite !QueryFramesInto_run.
  assert (materialize E tableName frames db
          = materialize E tableName frames' db) as ->; [|reflexivity].
  unfold materialize. generalize (@nil Table). revert db.
  induction Hsame as [|a b frames frames' Hab _ IH]; intros db ctx;
    [reflexivity|].
  cbn [materializeFrom]. unfold bind.
  assert (writeDataframeToDb E ctx tableName a db
          = writeDataframeToDb E ctx tableName b db) as ->.
  { destruct a as [fa|], b as [fb|]; try discriminate Hab; [|reflexivity].
    assert (Fields fa = Fields fb) as Hf by (cbn in Hab; congruence).
    unfold writeDataframeToDb, Rows, schemaOf.
    rewrite Hf. unfold bind, AddTable, modify.
    apply insertRows_fields, Hf. }
  destruct (writeDataframeToDb E ctx tableName b db) as [db' [[]|e|p]];
    [apply IH | reflexivity..].
Qed.

Lemma input_frame_names_are_not_read_witness :
  QueryFramesInto (scanning "t") "t" "SELECT * FROM t" [Some labelFrame]
    (NewInMemoryDB, zeroFrame)
  = QueryFramesInto (scanning "t") "t" "SELECT * FROM t"
      [Some (NewFrame "another name" (Fields labelFrame))]
      (NewInMemoryDB, zeroFrame).
Proof.
  apply (input_frame_names_are_not_read (scanning "t") "t" "SELECT * FROM t"
           [Some labelFrame]
           [Some (NewFrame "another name" (Fields labelFrame))]
           NewInMemoryDB zeroFrame).
  repeat constructor.
Defined.

(** ** What the result builder makes of a result *)

(** X8.  What becomes of a field on the way into a table and back out of a
    result: a field outside the supported enumeration is a JSON column
    and a field of times a timestamp column, and the first type switch of
    the result builder refuses both; a field of strings comes back as a
    field of strings; every other supported field - integers of any
    width, unsigned integers, floats and booleans - comes back as a field
    of 64-bit integers. *)
Theorem column_of_field_comes_back_as (tableName : string) (field : Field) :
  let col := {| colName := FName field;
                colType := convertDataType (FType field);
                Nullable := true; Source := tableName |} in
  schemaOf tableName (NewFrame "" [field]) = [col] /\
  fieldForColumn col =
    if negb (supported (FType field)) then
      inl (ErrUnsupportedColumnType (FName field) JSON)
    else if bool_decide (FType field = FieldTypeTime) then
      inl (ErrUnsupportedColumnType (FName field) Timestamp)
    else if bool_decide (FType field = FieldTypeString) then
      inr (NewField (FName field) FieldTypeString)
    else
      inr (NewField (FName field) FieldTypeInt64).
Proof.
  cbv zeta. split; [reflexivity|].
  destruct field as [name t vals]. destruct t; reflexivity.
Qed.

Lemma fieldForColumn_decodable (col : Column) :
  decodableColumn col = true -> fieldForColumn col = inr (columnField col).
Proof.
  unfold decodableColumn, fieldForColumn, columnField.
  destruct (isNumberType (colType col)); [reflexivity|].
  destruct (isStringType (colType col)); [reflexivity | discriminate].
Qed.

Lemma fieldForColumn_undecodable (col : Column) :
  decodableColumn col = false ->
  fieldForColumn col = inl (ErrUnsupportedColumnType (colName col) (colType col)).
Proof.
  unfold decodableColumn, fieldForColumn.
  destruct (isNumberType (colType col)); [discriminate|].
  destruct (isStringType (colType col)); [discriminate | reflexivity].
Qed.

(** The first loop on columns it has a case for. *)
Lemma createFields_decodable (schema : Schema) (f : Frame) :
  Forall (fun col => decodableColumn col = true) schema ->
  createFields schema f
  = ({| Name := Name f; Fields := Fields f ++ (columnField <$> schema) |},
     Ret tt).
Proof.
  intros Hall. revert f. induction Hall as [|col schema Hcol _ IH]; intros f.
  - cbn. rewrite app_nil_r. destruct f; reflexivity.
  - unfold createFields in *. cbn [forEach]. unfold bind.
    rewrite (fieldForColumn_decodable col Hcol). cbn [modify].
    rewrite IH. cbn. rewrite <- app_assoc. reflexivity.
Qed.

(** When the first loop succeeds, every column was one it has a case
    for. *)
Lemma createFields_Ret (schema : Schema) (f f' : Frame) :
  createFields schema f = (f', Ret tt) ->
  Forall (fun col => decodableColumn col = true) schema.
Proof.
  revert f. induction schema as [|col schema IH]; intros f; [constructor|].
  unfold createFields in *. cbn [forEach]. unfold bind.
  destruct (decodableColumn col) eqn:Hcol.
  - rewrite (fieldForColumn_decodable col Hcol). cbn [modify].
    intros H. constructor; [exact Hcol | exact (IH _ H)].
  - rewrite (fieldForColumn_undecodable col Hcol). discriminate.
Qed.

(** X9.  At the first column the first type switch has no case for, the
    call ends with the error of that column.  The fields made for the
    columns before it stay in the frame of the caller, empty; the columns
    after it are not looked at and the row stream is not read. *)
Theorem unsupported_column_keeps_earlier_fields (iter : RowIter)
    (good : Schema) (bad : Column) (rest : Schema) (f : Frame) :
  Forall (fun col => decodableColumn col = true) good ->
  decodableColumn bad = false ->
  convertToDataFrame iter (good ++ bad :: rest) f
  = ({| Name := Name f; Fields := Fields f ++ (columnField <$> good) |},
     Err (ErrUnsupportedColumnType (colName bad) (colType bad))).
Proof.
  intros Hgood Hbad. unfold convertToDataFrame, bind.
  unfold createFields. rewrite forEach_app. unfold bind.
  fold (createFields good). rewrite (createFields_decodable good f Hgood).
  cbn [forEach]. unfold bind.
  rewrite (fieldForColumn_undecodable bad Hbad). reflexivity.
Qed.

Lemma unsupported_column_keeps_earlier_fields_witness :
  convertToDataFrame [IterRow [VString "a"; VTime 0; VInt64 7]]
    ([{| colName := "x"; colType := LongText; Nullable := false;
         Source := "" |}]
     ++ {| colName := "at"; colType := Datetime; Nullable := false;
           Source := "" |}
     :: [{| colName := "k"; colType := Int64; Nullable := false;
            Source := "" |}])
    zeroFrame
  = ({| Name := ""; Fields := [NewField "x" FieldTypeString] |},
     Err (ErrUnsupportedColumnType "at" Datetime)).
Proof.
  apply (unsupported_column_keeps_earlier_fields
           [IterRow [VString "a"; VTime 0; VInt64 7]]
           [{| colName := "x"; colType := LongText; Nullable := false;
               Source := "" |}]
           {| colName := "at"; colType := Datetime; Nullable := false;
              Source := "" |}
           [{| colName := "k"; colType := Int64; Nullable := false;
               Source := "" |}]
           zeroFrame).
  - repeat constructor.
  - reflexivity.
Defined.

(** X10.  An error of the iterator ends the call with the error of reading
    a row: the rows decoded before it stay in the frame, and the rest of
    the stream is not read. *)
Theorem iterator_error_keeps_decoded_rows (schema : Schema)
    (decoded rest : RowIter) (cause : string) (f f1 : Frame) :
  convertToDataFrame decoded schema f = (f1, Ret tt) ->
  convertToDataFrame (decoded ++ IterErr cause :: rest) schema f
  = (f1, Err (ErrReadingRow cause)).
Proof.
  unfold convertToDataFrame, bind. intros Hdone.
  destruct (createFields schema f) as [fc [[]|e|p]]; try discriminate.
  rewrite readRows_app. unfold bind. rewrite Hdone. reflexivity.
Qed.

Lemma iterator_error_keeps_decoded_rows_witness :
  convertToDataFrame
    ([IterRow [VString "1"]] ++ IterErr "connection lost" :: [IterRow [VString "2"]])
    (fst literalOne) zeroFrame
  = ({| Name := ""; Fields := [mkField "n" FieldTypeString [VString "1"]] |},
     Err (ErrReadingRow "connection lost")).
Proof.
  apply (iterator_error_keeps_decoded_rows (fst literalOne)
           [IterRow [VString "1"]] [IterRow [VString "2"]] "connection lost"
           zeroFrame).
  reflexivity.
Defined.

(** The errors of the result builder are its own three. *)
Lemma appendValue_errors (schema : Schema) (i : nat) (v : GoValue)
    (f : Frame) (e : Error) :
  snd (appendValue schema i v f) = Err e ->
  exists col goType, e = ErrUnsupportedValueType col goType.
Proof.
  assert (forall w, snd (appendTo i w f) <> Err e) as Hto.
  { intros w. unfold appendTo. destruct (Fields f !! i) as [fld|];
      [|discriminate]. destruct (Append fld w); discriminate. }
  destruct v; cbn [appendValue]; try (intros H; destruct (Hto _ H));
    destruct (schema !! i); cbn; try discriminate; intros [= <-]; eauto.
Qed.

Lemma readRows_errors (schema : Schema) (iter : RowIter) (f : Frame)
    (e : Error) :
  snd (readRows iter schema f) = Err e ->
  (exists col goType, e = ErrUnsupportedValueType col goType) \/
  (exists cause, e = ErrReadingRow cause).
Proof.
  revert f. induction iter as [|[row|cause|reason] iter IH]; intros f.
  - discriminate.
  - cbn [readRows]. unfold bind.
    assert (forall i g, snd (forEachFrom i row (appendValue schema) g) = Err e ->
              exists col goType, e = ErrUnsupportedValueType col goType) as Hrow.
    { clear. induction row as [|v row IHr]; intros i g; [discriminate|].
      cbn [forEachFrom]. unfold bind.
      pose proof (appendValue_errors schema i v g e) as Hv.
      destruct (appendValue schema i v g) as [g' [[]|e'|p]]; cbn [snd] in *.
      - apply IHr.
      - exact Hv.
      - discriminate. }
    specialize (Hrow 0 f).
    destruct (forEachFrom 0 row (appendValue schema) f) as [f' [[]|e'|p]];
      cbn [snd] in *.
    + apply IH.
    + intros H. left. exact (Hrow H).
    + discriminate.
  - cbn. intros [= <-]. right. eauto.
  - discriminate.
Qed.

(** X11.  When a call returns an error of the materializer or the error of
    the engine for the statement, the frame of the caller is changed in
    its name only: no field is added and no value appended. *)
Theorem early_errors_change_the_name_only (E : Engine)
    (tableName query : string) (frames : list (option Frame))
    (db : Database) (f : Frame) (e : Error) :
  resultOf (QueryFramesInto E tableName query frames (db, f)) = Err e ->
  errorKind e = MaterializationError \/ (exists cause, e = ErrQuery cause) ->
  frameOf (QueryFramesInto E tableName query frames (db, f))
  = setName tableName f.
Proof.
  rewrite QueryFramesInto_run.
  destruct (materialize E tableName frames db) as [db' [[]|e'|p]];
    [|reflexivity..].
  destruct (engineQuery E db' query) as [cause|[schema iter]]; [reflexivity|].
  unfold convertToDataFrame, bind.
  pose proof (createFields_result schema (setName tableName f)) as Hc.
  destruct (createFields schema (setName tableName f)) as [fc rc].
  destruct Hc as [_ [[-> _] | (c & ty & ->)]].
  - pose proof (readRows_errors schema iter fc e) as Hr.
    destruct (readRows iter schema fc) as [f' r']. cbn in *.
    intros -> [Hk | [cause Hq]];
      destruct (Hr eq_refl) as [(c & t & ->) | (c & ->)]; discriminate.
  - cbn. intros [= <-] [Hk | [cause Hq]]; discriminate.
Qed.

Lemma early_errors_change_the_name_only_witness :
  frameOf (QueryFramesInto (scanning "inputFrameRefId") "sqlExpressionRefId"
             "SELECT * FROM inputFrameRefId" [Some typosFrame]
             (NewInMemoryDB, zeroFrame))
  = setName "sqlExpressionRefId" zeroFrame.
Proof.
  apply (early_errors_change_the_name_only (scanning "inputFrameRefId")
           "sqlExpressionRefId" "SELECT * FROM inputFrameRefId"
           [Some typosFrame] NewInMemoryDB zeroFrame
           (ErrQuery "table not found: inputFrameRefId")).
  - reflexivity.
  - right. exists "table not found: inputFrameRefId". reflexivity.
Defined.

(** ** How many values the fields get *)

(** A successful append puts one value at the end of field [i]. *)
Lemma appendTo_Ret (i : nat) (v : GoValue) (f f' : Frame) :
  appendTo i v f = (f', Ret tt) ->
  exists fld, Fields f !! i = Some fld /\ accepts fld v = true /\
    Fields f' = <[i := {| FName := FName fld; FType := FType fld;
                          values := values fld ++ [v] |}]> (Fields f).
Proof.
  unfold appendTo. destruct (Fields f !! i) as [fld|]; [|discriminate].
  unfold Append. destruct (accepts fld v) eqn:Hacc; [|discriminate].
  intros [= <-]. exists fld. auto.
Qed.

Lemma appendValue_Ret (schema : Schema) (i : nat) (v : GoValue) (f f' : Frame) :
  appendValue schema i v f = (f', Ret tt) ->
  appendTo i (widened v) f = (f', Ret tt) /\ inSwitch v = true.
Proof.
  destruct v; cbn [appendValue widened inSwitch]; auto;
    destruct (schema !! i); discriminate.
Qed.

Lemma appendValue_lens (schema : Schema) (i : nat) (v : GoValue) (f f' : Frame) :
  appendValue schema i v f = (f', Ret tt) ->
  i < length (Fields f) /\
  forall j, (Len <$> Fields f') !! j =
            if decide (j = i) then S <$> (Len <$> Fields f) !! j
            else (Len <$> Fields f) !! j.
Proof.
  intros H. apply appendValue_Ret in H as [H _].
  apply appendTo_Ret in H as (fld & Hi & _ & ->).
  pose proof (lookup_lt_Some _ _ _ Hi) as Hlt. split; [exact Hlt|].
  intros j. rewrite list_fmap_insert. case_decide as Hj.
  - subst j. rewrite list_lookup_insert_eq by (rewrite length_fmap; exact Hlt).
    rewrite list_lookup_fmap, Hi. cbn. unfold Len. cbn.
    rewrite length_app. cbn. f_equal. lia.
  - rewrite list_lookup_insert_ne by congruence. reflexivity.
Qed.

Lemma forEachFrom_lens (schema : Schema) (row : Row) (i : nat) (f f' : Frame) :
  forEachFrom i row (appendValue schema) f = (f', Ret tt) ->
  forall j, (Len <$> Fields f') !! j =
            if decide (i <= j < i + length row)
            then S <$> (Len <$> Fields f) !! j
            else (Len <$> Fields f) !! j.
Proof.
  revert i f. induction row as [|v row IH]; intros i f.
  - cbn. intros [= <-] j. case_decide; [lia | reflexivity].
  - cbn [forEachFrom]. unfold bind.
    destruct (appendValue schema i v f) as [f1 [[]|e|p]] eqn:Hv;
      try discriminate.
    intros Hrest j. apply appendValue_lens in Hv as [_ Hv].
    rewrite (IH _ _ Hrest j), (Hv j). cbn [length].
    repeat case_decide; try lia; reflexivity.
Qed.

(** Rows of one width [w] put one value each into the first [w] fields. *)
Lemma readRows_lens (schema : Schema) (w : nat) (iter : RowIter) (f f' : Frame) :
  readRows iter schema f = (f', Ret tt) ->
  (forall row, IterRow row ∈ iter -> length row = w) ->
  forall j, (Len <$> Fields f') !! j =
            if decide (j < w)
            then (fun n => n + length iter) <$> (Len <$> Fields f) !! j
            else (Len <$> Fields f) !! j.
Proof.
  revert f. induction iter as [|[row|cause|reason] iter IH];
    intros f Hrun Hw j.
  - injection Hrun as <-. case_decide; [|reflexivity].
    destruct ((Len <$> Fields f) !! j); cbn; [f_equal; lia | reflexivity].
  - cbn [readRows] in Hrun. unfold bind in Hrun.
    destruct (forEachFrom 0 row (appendValue schema) f) as [f1 [[]|e|p]] eqn:Hrow;
      try discriminate.
    rewrite (IH f1 Hrun (fun r Hr => Hw r (list_elem_of_further _ _ _ Hr)) j).
    rewrite (forEachFrom_lens _ _ _ _ _ Hrow j).
    rewrite (Hw row (list_elem_of_here _ _)). cbn [length].
    repeat case_decide; try lia; try reflexivity.
    destruct ((Len <$> Fields f) !! j); cbn; [f_equal; lia | reflexivity].
  - discriminate.
  - discriminate.
Qed.

(** Fields that grew have their names and types. *)
Lemma grows_names (f g : Frame) :
  grows f g ->
  FName <$> Fields g = FName <$> Fields f /\
  FType <$> Fields g = FType <$> Fields f.
Proof.
  intros [_ H]. split; apply list_eq_Forall2, Forall2_fmap;
    apply Forall2_flip; eapply Forall2_impl; [exact H | | exact H |];
    intros a b (? & ? & ?); cbn; congruence.
Qed.

(** X12.  When a call into the zero frame succeeds on rows as wide as the
    schema, the frame mirrors the result: one field per column, in the
    order and with the names of the columns, of 64-bit integers for a
    numeric column and of strings otherwise, and every field has as many
    values as the stream had rows. *)
Theorem decoded_frame_mirrors_result (iter : RowIter) (schema : Schema)
    (f' : Frame) :
  convertToDataFrame iter schema zeroFrame = (f', Ret tt) ->
  (forall row, IterRow row ∈ iter -> length row = length schema) ->
  FName <$> Fields f' = colName <$> schema /\
  FType <$> Fields f' = (fun col => FType (columnField col)) <$> schema /\
  Forall (fun field => Len field = length iter) (Fields f').
Proof.
  unfold convertToDataFrame, bind. intros Hrun Hw.
  destruct (createFields schema zeroFrame) as [fc [[]|e|p]] eqn:Hc;
    try discriminate.
  pose proof (createFields_Ret _ _ _ Hc) as Hdec.
  rewrite (createFields_decodable schema zeroFrame Hdec) in Hc.
  injection Hc as <-. cbn [zeroFrame Name Fields app] in *.
  pose proof (readRows_grows schema iter
                {| Name := ""; Fields := columnField <$> schema |}) as Hg.
  rewrite Hrun in Hg. cbn [fst] in Hg.
  destruct (grows_names _ _ Hg) as [Hnames Htypes]. cbn [Fields] in *.
  rewrite Hnames, Htypes, <- !list_fmap_compose.
  split; [reflexivity|]. split; [reflexivity|].
  apply Forall_lookup_2. intros j fld Hj.
  pose proof (readRows_lens schema (length schema) iter _ _ Hrun Hw j) as Hl.
  cbn [Fields] in Hl. rewrite !list_lookup_fmap, Hj in Hl. cbn in Hl.
  pose proof (lookup_lt_Some _ _ _ Hj) as Hlt.
  rewrite (grows_length _ _ Hg) in Hlt. cbn [Fields] in Hlt.
  rewrite length_fmap in Hlt.
  rewrite decide_True in Hl by exact Hlt.
  destruct (lookup_lt_is_Some_2 schema j Hlt) as [col Hcol].
  rewrite Hcol in Hl. cbn in Hl. injection Hl as ->. reflexivity.
Qed.

Lemma decoded_frame_mirrors_result_witness :
  FName <$> Fields (NewFrame "" [mkField "n" FieldTypeString [VString "1"]])
  = colName <$> fst literalOne /\
  FType <$> Fields (NewFrame "" [mkField "n" FieldTypeString [VString "1"]])
  = (fun col => FType (columnField col)) <$> fst literalOne /\
  Forall (fun field => Len field = length (snd literalOne))
    (Fields (NewFrame "" [mkField "n" FieldTypeString [VString "1"]])).
Proof.
  apply (decoded_frame_mirrors_result (snd literalOne) (fst literalOne)).
  - reflexivity.
  - intros row Hrow. apply list_elem_of_singleton in Hrow.
    injection Hrow as ->. reflexivity.
Defined.

(** X13.  A call into a frame that already has fields - the frame of an
    earlier call - adds its fields after them, but the values of its rows
    go to the fields at the front: when the rows are no wider than the
    fields the frame had, the first fields get one value per row and the
    new fields stay empty. *)
Theorem reused_frame_fills_old_fields (iter : RowIter) (schema : Schema)
    (w : nat) (f f' : Frame) :
  convertToDataFrame iter schema f = (f', Ret tt) ->
  (forall row, IterRow row ∈ iter -> length row = w) ->
  w <= length (Fields f) ->
  drop (length (Fields f)) (Fields f') = columnField <$> schema /\
  forall j old new,
    j < w -> Fields f !! j = Some old -> Fields f' !! j = Some new ->
    Len new = Len old + length iter.
Proof.
  unfold convertToDataFrame, bind. intros Hrun Hw Hle.
  destruct (createFields schema f) as [fc [[]|e|p]] eqn:Hc; try discriminate.
  pose proof (createFields_Ret _ _ _ Hc) as Hdec.
  rewrite (createFields_decodable schema f Hdec) in Hc. injection Hc as <-.
  pose proof (readRows_grows schema iter
                {| Name := Name f;
                   Fields := Fields f ++ (columnField <$> schema) |}) as Hg.
  rewrite Hrun in Hg. cbn [fst] in Hg. destruct Hg as [_ Hg]. cbn [Fields] in Hg.
  apply Forall2_app_inv_l in Hg as (k1 & k2 & H1 & H2 & Hf').
  pose proof (Forall2_length _ _ _ H1) as Hlen1.
  pose proof (readRows_lens schema w iter _ _ Hrun Hw) as Hl.
  cbn [Fields] in Hl. rewrite Hf' in Hl |- *.
  split.
  - rewrite (drop_app_length' k1 k2) by congruence.
    symmetry. apply list_eq_Forall2.
    apply Forall2_same_length_lookup_2; [apply (Forall2_length _ _ _ H2)|].
    intros j a b Ha Hb.
    destruct (Forall2_lookup_lr _ _ _ _ _ _ H2 Ha Hb) as (Hn & Ht & Hp).
    specialize (Hl (length (Fields f) + j)).
    rewrite decide_False in Hl by lia.
    rewrite !list_lookup_fmap in Hl.
    rewrite lookup_app_r in Hl by lia.
    rewrite (lookup_app_r (Fields f)) in Hl by lia.
    replace (length (Fields f) + j - length k1) with j in Hl by lia.
    replace (length (Fields f) + j - length (Fields f)) with j in Hl by lia.
    rewrite Ha, Hb in Hl. cbn in Hl. injection Hl as Hl. unfold Len in Hl.
    destruct a as [an at_ av], b as [bn bt bv]. cbn in *. subst.
    f_equal. apply prefix_length_eq; [exact Hp | lia].
  - intros j old new Hj Hold Hnew.
    specialize (Hl j). rewrite decide_True in Hl by exact Hj.
    rewrite !list_lookup_fmap, Hnew in Hl.
    rewrite lookup_app_l in Hl by (apply lookup_lt_Some in Hold; exact Hold).
    rewrite Hold in Hl. cbn in Hl. injection Hl as ->. reflexivity.
Qed.

Lemma reused_frame_fills_old_fields_witness :
  drop (length (Fields usedFrame))
    [mkField "n" FieldTypeString [VString "1"; VString "1"];
     mkField "n" FieldTypeString []]
  = columnField <$> fst literalOne /\
  forall j old new,
    j < 1 -> Fields usedFrame !! j = Some old ->
    [mkField "n" FieldTypeString [VString "1"; VString "1"];
     mkField "n" FieldTypeString []] !! j = Some new ->
    Len new = Len old + length (snd literalOne).
Proof.
  apply (reused_frame_fills_old_fields (snd literalOne) (fst literalOne) 1
           usedFrame
           {| Name := "sqlExpressionRefId";
              Fields := [mkField "n" FieldTypeString [VString "1"; VString "1"];
                         mkField "n" FieldTypeString []] |}).
  - reflexivity.
  - intros row Hrow. apply list_elem_of_singleton in Hrow.
    injection Hrow as ->. reflexivity.
  - cbn. lia.
Defined.

(** X14.  Which values the result builder can take, for a call into the
    zero frame, at any point of the decoding: at a column of the schema, an
    integer of 8 or 64 bits for a numeric column and a string for a string
    column are appended to the field of the column, the integer as an
    integer of 64 bits; a [float64], a [bool], a string for a numeric
    column and an integer for a string column pass the type switch and
    make the vector panic; any other value is the error of an unsupported
    value.  A refused value leaves the frame as it is. *)
Theorem value_is_appended_or_refused (schema : Schema) (f0 f : Frame)
    (i : nat) (col : Column) (v : GoValue) :
  createFields schema zeroFrame = (f0, Ret tt) ->
  grows f0 f ->
  schema !! i = Some col ->
  appendValue schema i v f =
    if decodes col v then (appended i (widened v) f, Ret tt)
    else if inSwitch v then
      (f, Panicked (PanicTypeAssertion
                      (elemTypeName (FType (columnField col)))
                      (goTypeName (widened v))))
    else (f, Err (ErrUnsupportedValueType (colName col) (goTypeName v))).
Proof.
  intros Hc Hg Hcol.
  pose proof (createFields_Ret _ _ _ Hc) as Hdec.
  rewrite (createFields_decodable schema zeroFrame Hdec) in Hc.
  injection Hc as <-. destruct Hg as [_ Hg]. cbn [zeroFrame Fields app] in Hg.
  assert ((columnField <$> schema) !! i = Some (columnField col)) as Hi
    by (rewrite list_lookup_fmap, Hcol; reflexivity).
  destruct (Forall2_lookup_l _ _ _ _ _ Hg Hi) as (fld & Hfld & _ & Hty & _).
  rewrite Forall_lookup in Hdec. specialize (Hdec i col Hcol).
  unfold decodableColumn in Hdec. unfold columnField in Hty. cbn in Hty.
  unfold decodes, columnField, appended. cbn [FType NewField].
  destruct v; cbn [appendValue inSwitch widened goTypeName];
    rewrite ?Hcol; try reflexivity;
    unfold appendTo; rewrite Hfld; unfold Append, accepts; rewrite <- Hty;
    destruct (isNumberType (colType col)), (isStringType (colType col));
    try discriminate Hdec; reflexivity.
Qed.

Lemma value_is_appended_or_refused_witness :
  appendValue (fst literalOne) 0 (VString "1")
    {| Name := ""; Fields := [NewField "n" FieldTypeString] |} =
    if decodes {| colName := "n"; colType := LongText; Nullable := false;
                  Source := "" |} (VString "1")
    then (appended 0 (widened (VString "1"))
            {| Name := ""; Fields := [NewField "n" FieldTypeString] |},
          Ret tt)
    else if inSwitch (VString "1") then
      ({| Name := ""; Fields := [NewField "n" FieldTypeString] |},
       Panicked (PanicTypeAssertion
                   (elemTypeName (FType (columnField
                      {| colName := "n"; colType := LongText;
                         Nullable := false; Source := "" |})))
                   (goTypeName (widened (VString "1")))))
    else ({| Name := ""; Fields := [NewField "n" FieldTypeString] |},
          Err (ErrUnsupportedValueType "n" "string")).
Proof.
  apply (value_is_appended_or_refused (fst literalOne)
           {| Name := ""; Fields := [NewField "n" FieldTypeString] |}
           {| Name := ""; Fields := [NewField "n" FieldTypeString] |}
           0 {| colName := "n"; colType := LongText; Nullable := false;
                Source := "" |}
           (VString "1")).
  - reflexivity.
  - apply grows_refl.
  - reflexivity.
Defined.
